(** * visactl: the widget shell of the VISA device controller (MainWindow.py)

    A shallow embedding of the signal/slot wiring of [MainWindow.py].
    Every class of the source that owns widgets is a module with the
    source's name; its [connect] method is a table of (signal, slot) pairs,
    its slot methods are programs in a small state/exception/trace monad,
    and the Qt widgets are records holding the properties the program
    reads or writes.  The classes [Color] and [ConfigurePopup] are never
    instantiated and are left out. *)

From stdpp Require Import base strings list gmap.
From Stdlib Require Import ZArith.

Open Scope string_scope.
Open Scope list_scope.
Set Warnings "-register-all".

(** ** Python values *)

(** [Qt.CheckState]: the value returned by [QCheckBox.checkState()]. *)
Inductive CheckState := Unchecked | PartiallyChecked | Checked.

#[global] Instance CheckState_eq_dec : EqDecision CheckState.
Proof. solve_decision. Defined.

(** The dynamically typed values that travel through signals and slots. *)
Inductive PyVal :=
| PyBool (b : bool)
| PyInt (z : Z)
| PyStr (s : string)
| PyCheckState (c : CheckState)
| PyDict (d : gmap string PyVal).

Inductive PyType := Tbool | Tint | Tstr | TCheckState | Tdict.

#[global] Instance PyType_eq_dec : EqDecision PyType.
Proof. solve_decision. Defined.

Definition type_of (v : PyVal) : PyType :=
  match v with
  | PyBool _ => Tbool
  | PyInt _ => Tint
  | PyStr _ => Tstr
  | PyCheckState _ => TCheckState
  | PyDict _ => Tdict
  end.

(** [Qt.CheckState.value]: the integer carried by [stateChanged(int)]. *)
Definition CheckState_value (c : CheckState) : Z :=
  match c with Unchecked => 0 | PartiallyChecked => 1 | Checked => 2 end.

(** ** Notifications: the three [pyqtSignal]s declared by the boxes *)

Inductive PySignal :=
| signalVisaSettingsChanged
| signalSqlSettingsChanged
| signalLocalSettingsChanged.

#[global] Instance PySignal_eq_dec : EqDecision PySignal.
Proof. solve_decision. Defined.

(** The argument type each signal is declared with:
    [pyqtSignal(str)], [pyqtSignal(dict)], [pyqtSignal(str)]. *)
Definition pyqtSignal (s : PySignal) : PyType :=
  match s with
  | signalVisaSettingsChanged => Tstr
  | signalSqlSettingsChanged => Tdict
  | signalLocalSettingsChanged => Tstr
  end.

Record Emission := Emit { em_signal : PySignal; em_payload : PyVal }.

(** ** The monad of slot bodies

    A method runs on [self], may raise, and appends to the trace of
    emitted notifications.  No slot is connected to any of the three
    [pyqtSignal]s ([MainWindow.connect] is [pass]), so an emission has no
    effect besides being observable: it is recorded in the trace. *)

Inductive Exn := TypeError | RecursionError.

Inductive Res (A : Type) :=
| Ok (a : A)
| Raise (e : Exn).
Arguments Ok {A} a.
Arguments Raise {A} e.

Definition M (Self A : Type) : Type := Self -> Res (A * Self * list Emission).

Definition ret {Self A} (a : A) : M Self A := fun s => Ok (a, s, []).

Definition bind {Self A B} (m : M Self A) (k : A -> M Self B) : M Self B :=
  fun s =>
    match m s with
    | Raise e => Raise e
    | Ok (a, s1, out1) =>
        match k a s1 with
        | Raise e => Raise e
        | Ok (b, s2, out2) => Ok (b, s2, out1 ++ out2)
        end
    end.

Notation "'let*' x ':=' m 'in' k" := (bind m (fun x => k))
  (at level 10, x name, m at level 100, k at level 200).

Definition raise {Self A} (e : Exn) : M Self A := fun _ => Raise e.
Definition gets {Self A} (f : Self -> A) : M Self A := fun s => Ok (f s, s, []).
Definition modify {Self} (f : Self -> Self) : M Self unit := fun s => Ok (tt, f s, []).

(** [signal.emit(v)]: PyQt checks the argument against the declared type. *)
Definition emit {Self} (sig : PySignal) (v : PyVal) : M Self unit :=
  if decide (type_of v = pyqtSignal sig)
  then fun s => Ok (tt, s, [Emit sig v])
  else raise TypeError.

(** Run a method of a child object stored in a field of [self]. *)
Definition zoom {Self Child A} (get : Self -> Child) (set : Child -> Self -> Self)
    (m : M Child A) : M Self A :=
  fun s =>
    match m (get s) with
    | Raise e => Raise e
    | Ok (a, c, out) => Ok (a, set c s, out)
    end.

(** Run a method on the object under construction and return the object. *)
Definition construct {Self} (self : Self) (method : M Self unit) : M unit Self :=
  fun _ =>
    match method self with
    | Raise e => Raise e
    | Ok (_, self', out) => Ok (self', tt, out)
    end.

(** ** Signal dispatch

    [sig.connect(slot)] appends to the connection table; when Qt emits
    [sig] every slot connected to it runs, synchronously and in connection
    order.  A slot body may itself cause Qt signals (a [setText] inside a
    handler emits [textChanged]), so bodies receive the dispatcher for the
    nested emissions; the nesting depth is bounded by the interpreter's
    recursion limit. *)

Definition recursion_limit : nat := 1000.

Section Dispatch.
Context {signal slot Self : Type} `{EqDecision signal}.
Variable connect : list (signal * slot).
Variable body : (signal -> list PyVal -> M Self unit) -> slot -> list PyVal -> M Self unit.

Fixpoint run_slots (fire : signal -> list PyVal -> M Self unit)
    (conns : list (signal * slot)) (sig : signal) (args : list PyVal) : M Self unit :=
  match conns with
  | [] => ret tt
  | (s, sl) :: rest =>
      let* _ := if decide (s = sig) then body fire sl args else ret tt in
      run_slots fire rest sig args
  end.

Fixpoint fire (depth : nat) (sig : signal) (args : list PyVal) : M Self unit :=
  match depth with
  | O => raise RecursionError
  | S d => run_slots (fire d) connect sig args
  end.
End Dispatch.

(** ** Qt widgets: the properties the program can observe *)

Record QLabel := { QLabel_text : string }.
Record QPushButton := { QPushButton_text : string }.
Record QLineEdit := { text : string }.
Record QCheckBox := { checkState : CheckState; isTristate : bool }.
Record QComboBox := { itemTexts : list string; currentText : string }.

(** The signals of a [QLineEdit] and of a [QPushButton]. *)
Inductive QLineEditSignal := textChanged | textEdited | editingFinished | returnPressed.
Inductive QPushButtonSignal := clicked | pressed | released.

#[global] Instance QLineEditSignal_eq_dec : EqDecision QLineEditSignal.
Proof. solve_decision. Defined.
#[global] Instance QPushButtonSignal_eq_dec : EqDecision QPushButtonSignal.
Proof. solve_decision. Defined.

(** Widgets as their constructors leave them. *)
Definition QLineEdit_new : QLineEdit := {| text := "" |}.
Definition QCheckBox_new : QCheckBox := {| checkState := Unchecked; isTristate := false |}.
Definition QComboBox_new : QComboBox := {| itemTexts := []; currentText := "" |}.

(** [QCheckBox.nextCheckState]: what a click does to the check state. *)
Definition nextCheckState (c : QCheckBox) : CheckState :=
  if isTristate c then
    match checkState c with
    | Unchecked => PartiallyChecked
    | PartiallyChecked => Checked
    | Checked => Unchecked
    end
  else
    match checkState c with
    | Unchecked => Checked
    | _ => Unchecked
    end.

(** The modal pickers.  The user's answer is an input of the model:
    [Some path] when the dialog is confirmed, [None] when it is cancelled.
    [QFileDialog.getExistingDirectory] returns the path, or the empty
    string on cancel; [QFileDialog.getOpenFileName] returns the pair
    (file name, selected filter), both empty on cancel. *)
Definition getExistingDirectory (answer : option string) : string :=
  match answer with Some dir => dir | None => "" end.

Definition getOpenFileName (answer : option (string * string)) : string * string :=
  match answer with Some r => r | None => ("", "") end.

(** A bound method used as a slot.  PyQt calls it with the arguments of the
    signal and drops those the method does not take. *)
Definition Slot (signal Self : Type) : Type :=
  (signal -> list PyVal -> M Self unit) -> list PyVal -> M Self unit.

Definition slot0 {signal Self} (method : M Self unit) : Slot signal Self :=
  fun _ _ => method.

Definition slot1 {signal Self} (method : PyVal -> M Self unit) : Slot signal Self :=
  fun _ args =>
    match args with
    | a :: _ => method a
    | [] => raise TypeError
    end.

(** A slot that itself drives widgets, and so may cause nested signals. *)
Definition slot0_nested {signal Self}
    (method : (signal -> list PyVal -> M Self unit) -> M Self unit) : Slot signal Self :=
  fun fire _ => method fire.

Definition call_slot {signal Self} (fire : signal -> list PyVal -> M Self unit)
    (sl : Slot signal Self) (args : list PyVal) : M Self unit :=
  sl fire args.

(** The notifications a run emitted, when it returned. *)
Definition emitted {A Self} (r : Res (A * Self * list Emission)) : option (list Emission) :=
  match r with Ok (_, _, out) => Some out | Raise _ => None end.

Definition final {A Self} (r : Res (A * Self * list Emission)) : option Self :=
  match r with Ok (_, s, _) => Some s | Raise _ => None end.

(** ** class VisaConnectionBox(ConnectionBox) *)

Module VisaConnectionBox.

Record t := {
  title : string;
  lab_status : QLabel;
  lab_status_q : QLabel;
  lab_device : QLabel;
  dd_device : QComboBox;
}.

(** The Qt signals of the child widgets. *)
Inductive signal :=
| dd_device_currentTextChanged
| dd_device_currentIndexChanged
| dd_device_activated.

#[global] Instance signal_eq_dec : EqDecision signal.
Proof. solve_decision. Defined.

Definition _layout (title : string) : t :=
  {| title := title;
     lab_status := {| QLabel_text := "Connection status:" |};
     lab_status_q := {| QLabel_text := "Disconnected" |};
     lab_device := {| QLabel_text := "Device:" |};
     dd_device := QComboBox_new |}.

Definition onVisaSettingsChanged (device : PyVal) : M t unit :=
  emit signalVisaSettingsChanged device.

(** [connect] runs once, from [__init__], and nothing is ever
    disconnected: the connection table of the box is this constant. *)
Definition connect : list (signal * Slot signal t) :=
  [ (dd_device_currentTextChanged, slot1 onVisaSettingsChanged) ].

(** [__init__]: the base class takes the title, [_layout] builds the child
    widgets, [connect] fills the table.  No signal is emitted meanwhile: the
    widgets are built before anything is connected, and nothing touches
    them afterwards. *)
Definition __init__ : M unit t :=
  ret (_layout "VISA device connection").

Definition fire : signal -> list PyVal -> M t unit :=
  fire connect call_slot recursion_limit.

Definition set_dd_device (c : QComboBox) (self : t) : t :=
  {| title := title self; lab_status := lab_status self;
     lab_status_q := lab_status_q self; lab_device := lab_device self;
     dd_device := c |}.

(** What can happen to the box.  The selector is not editable and the
    program never fills it: its current text changes when an item is
    chosen, or when its list is filled from outside.  Qt then stores the
    new text and emits [currentTextChanged] with it; choosing the text
    that is already current changes nothing and emits nothing. *)
Inductive event :=
| select_device (V : string)
| activate_device (index : Z).

Definition handle (e : event) : M t unit :=
  match e with
  | select_device V =>
      let* old := gets (fun self => currentText (dd_device self)) in
      if decide (V = old) then ret tt
      else
        let* _ := modify (fun self =>
          set_dd_device {| itemTexts := itemTexts (dd_device self); currentText := V |} self) in
        fire dd_device_currentTextChanged [PyStr V]
  | activate_device index => fire dd_device_activated [PyInt index]
  end.

End VisaConnectionBox.

(** ** class SqlConnectionBox(ConnectionBox) *)

Module SqlConnectionBox.

Record t := {
  title : string;
  lab_status : QLabel;
  checkbox_status : QCheckBox;
  lab_server : QLabel;
  line_server : QLineEdit;
  lab_database : QLabel;
  line_database : QLineEdit;
  lab_table : QLabel;
  line_table : QLineEdit;
}.

(** The three line edits, and the Qt signals of the child widgets:
    [of_line Line_server editingFinished] is
    [self.line_server.editingFinished]. *)
Inductive line_edit := Line_server | Line_database | Line_table.

Inductive signal :=
| checkbox_status_stateChanged
| checkbox_status_clicked
| of_line (w : line_edit) (q : QLineEditSignal).

#[global] Instance line_edit_eq_dec : EqDecision line_edit.
Proof. solve_decision. Defined.
#[global] Instance signal_eq_dec : EqDecision signal.
Proof. solve_decision. Defined.

Definition _layout (title : string) : t :=
  {| title := title;
     lab_status := {| QLabel_text := "Enable logging:" |};
     checkbox_status := QCheckBox_new;
     lab_server := {| QLabel_text := "Server:" |};
     line_server := QLineEdit_new;
     lab_database := {| QLabel_text := "Database:" |};
     line_database := QLineEdit_new;
     lab_table := {| QLabel_text := "Table:" |};
     line_table := QLineEdit_new |}.

(** Return a dictionary of the current sql settings. *)
Definition settings (self : t) : gmap string PyVal :=
  {[ "enabled" := PyCheckState (checkState (checkbox_status self));
     "server" := PyStr (text (line_server self));
     "database" := PyStr (text (line_database self));
     "table" := PyStr (text (line_table self)) ]}.

Definition onSqlSettingsChanged : M t unit :=
  let* d := gets settings in
  emit signalSqlSettingsChanged (PyDict d).

Definition connect : list (signal * Slot signal t) :=
  [ (checkbox_status_stateChanged, slot0 onSqlSettingsChanged);
    (of_line Line_server editingFinished, slot0 onSqlSettingsChanged);
    (of_line Line_database editingFinished, slot0 onSqlSettingsChanged);
    (of_line Line_table editingFinished, slot0 onSqlSettingsChanged) ].

Definition __init__ : M unit t :=
  ret (_layout "SQL server connection").

Definition fire : signal -> list PyVal -> M t unit :=
  fire connect call_slot recursion_limit.

Definition set_checkbox_status (c : QCheckBox) (self : t) : t :=
  {| title := title self; lab_status := lab_status self; checkbox_status := c;
     lab_server := lab_server self; line_server := line_server self;
     lab_database := lab_database self; line_database := line_database self;
     lab_table := lab_table self; line_table := line_table self |}.

Definition line (w : line_edit) (self : t) : QLineEdit :=
  match w with
  | Line_server => line_server self
  | Line_database => line_database self
  | Line_table => line_table self
  end.

Definition set_line (w : line_edit) (l : QLineEdit) (self : t) : t :=
  {| title := title self; lab_status := lab_status self;
     checkbox_status := checkbox_status self;
     lab_server := lab_server self;
     line_server := if decide (w = Line_server) then l else line_server self;
     lab_database := lab_database self;
     line_database := if decide (w = Line_database) then l else line_database self;
     lab_table := lab_table self;
     line_table := if decide (w = Line_table) then l else line_table self |}.

(** What the user can do to the box.  A click on the checkbox moves it to
    its next check state and Qt emits [stateChanged] with the state's
    integer, then [clicked] with the checked flag; typing replaces a
    field's text and emits [textChanged] and [textEdited]; Return, Enter
    or leaving the field ends the edit and emits [editingFinished]. *)
Inductive event :=
| toggle_logging
| type_text (w : line_edit) (s : string)
| finish_edit (w : line_edit).

Definition handle (e : event) : M t unit :=
  match e with
  | toggle_logging =>
      let* next := gets (fun self => nextCheckState (checkbox_status self)) in
      let* _ := modify (fun self =>
        set_checkbox_status
          {| checkState := next; isTristate := isTristate (checkbox_status self) |} self) in
      let* _ := fire checkbox_status_stateChanged [PyInt (CheckState_value next)] in
      fire checkbox_status_clicked [PyBool (bool_decide (next <> Unchecked))]
  | type_text w s =>
      let* _ := modify (set_line w {| text := s |}) in
      let* _ := fire (of_line w textChanged) [PyStr s] in
      fire (of_line w textEdited) [PyStr s]
  | finish_edit w => fire (of_line w editingFinished) []
  end.

End SqlConnectionBox.

(** ** class LocalConnectionBox(ConnectionBox) *)

(** What the user answers to the modal pickers while a handler runs. *)
Record Picker := {
  chosen_directory : option string;
  chosen_file : option (string * string);
}.

(** The user's answers: a chosen directory, a chosen file, a cancelled
    picker. *)
Definition confirms_directory (dir : string) : Picker :=
  {| chosen_directory := Some dir; chosen_file := None |}.
Definition confirms_file (name filter : string) : Picker :=
  {| chosen_directory := None; chosen_file := Some (name, filter) |}.
Definition cancels : Picker :=
  {| chosen_directory := None; chosen_file := None |}.

Module LocalConnectionBox.

Record t := {
  title : string;
  lab_statefile : QLabel;
  button_statefile : QPushButton;
  line_statefile : QLineEdit;
  lab_dir : QLabel;
  button_dir : QPushButton;
  line_dir : QLineEdit;
}.

Inductive line_edit := Line_statefile | Line_dir.
Inductive button := Button_statefile | Button_dir.

Inductive signal :=
| of_button (b : button) (q : QPushButtonSignal)
| of_line (w : line_edit) (q : QLineEditSignal).

#[global] Instance line_edit_eq_dec : EqDecision line_edit.
Proof. solve_decision. Defined.
#[global] Instance button_eq_dec : EqDecision button.
Proof. solve_decision. Defined.
#[global] Instance signal_eq_dec : EqDecision signal.
Proof. solve_decision. Defined.

Definition _layout (title : string) : t :=
  {| title := title;
     lab_statefile := {| QLabel_text := "State file:" |};
     button_statefile := {| QPushButton_text := "Browse..." |};
     line_statefile := QLineEdit_new;
     lab_dir := {| QLabel_text := "Fallback directory:" |};
     button_dir := {| QPushButton_text := "Browse..." |};
     line_dir := QLineEdit_new |}.

Definition line (w : line_edit) (self : t) : QLineEdit :=
  match w with
  | Line_statefile => line_statefile self
  | Line_dir => line_dir self
  end.

Definition set_line (w : line_edit) (l : QLineEdit) (self : t) : t :=
  {| title := title self;
     lab_statefile := lab_statefile self;
     button_statefile := button_statefile self;
     line_statefile := if decide (w = Line_statefile) then l else line_statefile self;
     lab_dir := lab_dir self;
     button_dir := button_dir self;
     line_dir := if decide (w = Line_dir) then l else line_dir self |}.

(** [QLineEdit.setText]: stores the text; when the text differs from the
    old one Qt emits [textChanged] (and neither [textEdited] nor
    [editingFinished], which are reserved to edits made by the user). *)
Definition setText (fire : signal -> list PyVal -> M t unit)
    (w : line_edit) (s : string) : M t unit :=
  let* old := gets (fun self => text (line w self)) in
  let* _ := modify (set_line w {| text := s |}) in
  if decide (s = old) then ret tt else fire (of_line w textChanged) [PyStr s].

Definition onLocalSettingsChanged : M t unit :=
  let* path := gets (fun self => text (line_dir self)) in
  emit signalLocalSettingsChanged (PyStr path).

(** Select folder interactively. *)
Definition onDirectoryButtonClicked (user : Picker)
    (fire : signal -> list PyVal -> M t unit) : M t unit :=
  let folder := getExistingDirectory (chosen_directory user) in
  setText fire Line_dir folder.

(** Select statefile interactively. *)
Definition onStatefileButtonClicked (user : Picker)
    (fire : signal -> list PyVal -> M t unit) : M t unit :=
  let file_name := (getOpenFileName (chosen_file user)).1 in
  setText fire Line_statefile file_name.

Definition connect (user : Picker) : list (signal * Slot signal t) :=
  [ (of_button Button_statefile clicked, slot0_nested (onStatefileButtonClicked user));
    (of_button Button_dir clicked, slot0_nested (onDirectoryButtonClicked user));
    (of_line Line_dir editingFinished, slot0 onLocalSettingsChanged) ].

Definition __init__ : M unit t :=
  ret (_layout "Local settings").

Definition fire (user : Picker) : signal -> list PyVal -> M t unit :=
  fire (connect user) call_slot recursion_limit.

(** What the user can do to the box: click one of the two browse buttons
    (and then answer the picker it opens), type in a field, end an edit.
    A click emits [pressed], [released] and [clicked].  Typing and ending
    an edit open no picker: no answer is read, and [cancels] stands for
    it. *)
Inductive event :=
| click (b : button) (user : Picker)
| type_text (w : line_edit) (s : string)
| finish_edit (w : line_edit).

Definition handle (e : event) : M t unit :=
  match e with
  | click b user =>
      let* _ := fire user (of_button b pressed) [] in
      let* _ := fire user (of_button b released) [] in
      fire user (of_button b clicked) [PyBool false]
  | type_text w s =>
      let* _ := modify (set_line w {| text := s |}) in
      let* _ := fire cancels (of_line w textChanged) [PyStr s] in
      fire cancels (of_line w textEdited) [PyStr s]
  | finish_edit w => fire cancels (of_line w editingFinished) []
  end.

End LocalConnectionBox.

(** ** class ConnectionsPage(QWidget)

    The page creates its three boxes in this order and hands them to its
    grid layout without keeping a name for them; the fields stand for the
    layout's three entries. *)

Module ConnectionsPage.

Record t := {
  visa : VisaConnectionBox.t;
  sql : SqlConnectionBox.t;
  local : LocalConnectionBox.t;
}.

Definition __init__ : M unit t :=
  let* v := VisaConnectionBox.__init__ in
  let* s := SqlConnectionBox.__init__ in
  let* l := LocalConnectionBox.__init__ in
  ret {| visa := v; sql := s; local := l |}.

Definition set_visa (b : VisaConnectionBox.t) (self : t) : t :=
  {| visa := b; sql := sql self; local := local self |}.
Definition set_sql (b : SqlConnectionBox.t) (self : t) : t :=
  {| visa := visa self; sql := b; local := local self |}.
Definition set_local (b : LocalConnectionBox.t) (self : t) : t :=
  {| visa := visa self; sql := sql self; local := b |}.

Inductive event :=
| on_visa (e : VisaConnectionBox.event)
| on_sql (e : SqlConnectionBox.event)
| on_local (e : LocalConnectionBox.event).

Definition handle (e : event) : M t unit :=
  match e with
  | on_visa e => zoom visa set_visa (VisaConnectionBox.handle e)
  | on_sql e => zoom sql set_sql (SqlConnectionBox.handle e)
  | on_local e => zoom local set_local (LocalConnectionBox.handle e)
  end.

End ConnectionsPage.

(** ** class StatefileTable(QGroupBox) *)

(** [QTableWidget]: the row and column counts, the horizontal header items
    ([None] where no item was set: Qt then shows the column number) and the
    cell texts. *)
Record QTableWidget := {
  rowCount : nat;
  columnCount : nat;
  horizontalHeaderItems : list (option string);
  items : gmap (nat * nat) string;
}.

(** [QTableWidget(rows, columns)]. *)
Definition QTableWidget_new (rows columns : nat) : QTableWidget :=
  {| rowCount := rows; columnCount := columns;
     horizontalHeaderItems := replicate columns None; items := ∅ |}.

(** [setHorizontalHeaderLabels]: the i-th label goes to the i-th column;
    labels beyond the last column are dropped, columns beyond the last
    label keep their header. *)
Fixpoint set_labels (headers : list (option string)) (labels : list string)
    : list (option string) :=
  match headers, labels with
  | _ :: headers', l :: labels' => Some l :: set_labels headers' labels'
  | _, _ => headers
  end.

Definition setHorizontalHeaderLabels (labels : list string) (w : QTableWidget) : QTableWidget :=
  {| rowCount := rowCount w; columnCount := columnCount w;
     horizontalHeaderItems := set_labels (horizontalHeaderItems w) labels;
     items := items w |}.

(** The user edits a cell in place: only a cell of the table can be
    reached. *)
Definition editCell (row column : nat) (s : string) (w : QTableWidget) : QTableWidget :=
  if decide (row < rowCount w ∧ column < columnCount w)
  then {| rowCount := rowCount w; columnCount := columnCount w;
          horizontalHeaderItems := horizontalHeaderItems w;
          items := <[(row, column) := s]> (items w) |}
  else w.

Module StatefileTable.

Record t := {
  title : string;
  table : QTableWidget;
}.

Definition headers : list string := [ "Description"; "Units"; "Scan"; "Configure" ].

Definition __init__ : M unit t :=
  ret {| title := "Scan Route";
         table := setHorizontalHeaderLabels headers (QTableWidget_new 0 4) |}.

(** The class connects no signal and has no method besides its
    constructor; the user can only try to edit a cell. *)
Inductive event :=
| edit_cell (row column : nat) (s : string).

Definition handle (e : event) : M t unit :=
  match e with
  | edit_cell row column s =>
      modify (fun self => {| title := title self; table := editCell row column s (table self) |})
  end.

End StatefileTable.

(** ** class StatefileSourceBox(ConnectionBox) *)

Module StatefileSourceBox.

Record t := {
  title : string;
  lab_src : QLabel;
  dd_src : QComboBox;
  button_src_reload : QPushButton;
}.

Inductive signal :=
| dd_src_currentTextChanged
| button_src_reload_signal (q : QPushButtonSignal).

#[global] Instance signal_eq_dec : EqDecision signal.
Proof. solve_decision. Defined.

(** No [connect] method: nothing is connected. *)
Definition connect : list (signal * Slot signal t) := [].

Definition __init__ : M unit t :=
  ret {| title := "State file settings";
         lab_src := {| QLabel_text := "State file source:" |};
         dd_src := QComboBox_new;
         button_src_reload := {| QPushButton_text := "Reload" |} |}.

Definition fire : signal -> list PyVal -> M t unit :=
  fire connect call_slot recursion_limit.

Inductive event :=
| select_source (V : string)
| click_reload.

Definition handle (e : event) : M t unit :=
  match e with
  | select_source V =>
      let* old := gets (fun self => currentText (dd_src self)) in
      if decide (V = old) then ret tt
      else
        let* _ := modify (fun self =>
          {| title := title self; lab_src := lab_src self;
             dd_src := {| itemTexts := itemTexts (dd_src self); currentText := V |};
             button_src_reload := button_src_reload self |}) in
        fire dd_src_currentTextChanged [PyStr V]
  | click_reload =>
      let* _ := fire (button_src_reload_signal pressed) [] in
      let* _ := fire (button_src_reload_signal released) [] in
      fire (button_src_reload_signal clicked) [PyBool false]
  end.

End StatefileSourceBox.

(** ** class StatefilePage(QWidget) *)

Module StatefilePage.

Record t := {
  box_source : StatefileSourceBox.t;
  table_statefile : StatefileTable.t;
}.

Definition __init__ : M unit t :=
  let* b := StatefileSourceBox.__init__ in
  let* tb := StatefileTable.__init__ in
  ret {| box_source := b; table_statefile := tb |}.

Definition set_box_source (b : StatefileSourceBox.t) (self : t) : t :=
  {| box_source := b; table_statefile := table_statefile self |}.
Definition set_table_statefile (tb : StatefileTable.t) (self : t) : t :=
  {| box_source := box_source self; table_statefile := tb |}.

Inductive event :=
| on_source (e : StatefileSourceBox.event)
| on_table (e : StatefileTable.event).

Definition handle (e : event) : M t unit :=
  match e with
  | on_source e => zoom box_source set_box_source (StatefileSourceBox.handle e)
  | on_table e => zoom table_statefile set_table_statefile (StatefileTable.handle e)
  end.

End StatefilePage.

(** ** class MetadataBox(QGroupBox) *)

Module MetadataBox.

Record t := {
  title : string;
  label_part : QLabel;
  line_part : QLineEdit;
  label_number : QLabel;
  line_number : QLineEdit;
}.

Inductive line_edit := Line_part | Line_number.

Inductive signal :=
| of_line (w : line_edit) (q : QLineEditSignal).

#[global] Instance line_edit_eq_dec : EqDecision line_edit.
Proof. solve_decision. Defined.
#[global] Instance signal_eq_dec : EqDecision signal.
Proof. solve_decision. Defined.

(** The class declares no [pyqtSignal] and has no [connect] method. *)
Definition connect : list (signal * Slot signal t) := [].

Definition __init__ : M unit t :=
  ret {| title := "Metadata";
         label_part := {| QLabel_text := "Part number" |};
         line_part := QLineEdit_new;
         label_number := {| QLabel_text := "Run number" |};
         line_number := QLineEdit_new |}.

Definition fire : signal -> list PyVal -> M t unit :=
  fire connect call_slot recursion_limit.

Definition line (w : line_edit) (self : t) : QLineEdit :=
  match w with
  | Line_part => line_part self
  | Line_number => line_number self
  end.

Definition set_line (w : line_edit) (l : QLineEdit) (self : t) : t :=
  {| title := title self;
     label_part := label_part self;
     line_part := if decide (w = Line_part) then l else line_part self;
     label_number := label_number self;
     line_number := if decide (w = Line_number) then l else line_number self |}.

Inductive event :=
| type_text (w : line_edit) (s : string)
| finish_edit (w : line_edit)
| press_return (w : line_edit).

Definition handle (e : event) : M t unit :=
  match e with
  | type_text w s =>
      let* _ := modify (set_line w {| text := s |}) in
      let* _ := fire (of_line w textChanged) [PyStr s] in
      fire (of_line w textEdited) [PyStr s]
  | finish_edit w => fire (of_line w editingFinished) []
  | press_return w =>
      let* _ := fire (of_line w returnPressed) [] in
      fire (of_line w editingFinished) []
  end.

End MetadataBox.

(** ** class AquisitionPage(QWidget) *)

Module AquisitionPage.

Record t := {
  button_nextrun : QPushButton;
  button_load : QPushButton;
  button_start : QPushButton;
  box_metadata : MetadataBox.t;
}.

Inductive button := Button_nextrun | Button_load | Button_start.

Inductive signal :=
| of_button (b : button) (q : QPushButtonSignal).

#[global] Instance button_eq_dec : EqDecision button.
Proof. solve_decision. Defined.
#[global] Instance signal_eq_dec : EqDecision signal.
Proof. solve_decision. Defined.

Definition connect : list (signal * Slot signal t) := [].

Definition __init__ : M unit t :=
  let* m := MetadataBox.__init__ in
  ret {| button_nextrun := {| QPushButton_text := "Guess meta data" |};
         button_load := {| QPushButton_text := "Set load" |};
         button_start := {| QPushButton_text := "Start" |};
         box_metadata := m |}.

Definition fire : signal -> list PyVal -> M t unit :=
  fire connect call_slot recursion_limit.

Definition set_box_metadata (m : MetadataBox.t) (self : t) : t :=
  {| button_nextrun := button_nextrun self; button_load := button_load self;
     button_start := button_start self; box_metadata := m |}.

Inductive event :=
| click (b : button)
| on_metadata (e : MetadataBox.event).

Definition handle (e : event) : M t unit :=
  match e with
  | click b =>
      let* _ := fire (of_button b pressed) [] in
      let* _ := fire (of_button b released) [] in
      fire (of_button b clicked) [PyBool false]
  | on_metadata e => zoom box_metadata set_box_metadata (MetadataBox.handle e)
  end.

End AquisitionPage.

(** ** class TabWidget(QTabWidget) *)

Inductive TabPosition := North | South | West | East.

(** [QTabWidget]: where the bar is, whether the user may drag tabs, the
    tabs in display order (the page each one shows, and its label), and
    the index of the current tab. *)
Record QTabWidget (Page : Type) := {
  tabPosition : TabPosition;
  movable : bool;
  tabs : list (Page * string);
  currentIndex : option nat;
}.
Arguments tabPosition {Page} _.
Arguments movable {Page} _.
Arguments tabs {Page} _.
Arguments currentIndex {Page} _.

Section QTabWidget.
Context {Page : Type}.

Definition QTabWidget_new : QTabWidget Page :=
  {| tabPosition := North; movable := false; tabs := []; currentIndex := None |}.

Definition setTabPosition (p : TabPosition) (w : QTabWidget Page) : QTabWidget Page :=
  {| tabPosition := p; movable := movable w; tabs := tabs w;
     currentIndex := currentIndex w |}.

Definition setMovable (b : bool) (w : QTabWidget Page) : QTabWidget Page :=
  {| tabPosition := tabPosition w; movable := b; tabs := tabs w;
     currentIndex := currentIndex w |}.

(** [addTab] appends; the first tab added becomes the current one. *)
Definition addTab (page : Page) (label : string) (w : QTabWidget Page) : QTabWidget Page :=
  {| tabPosition := tabPosition w; movable := movable w;
     tabs := tabs w ++ [(page, label)];
     currentIndex := match currentIndex w with None => Some 0 | Some i => Some i end |}.

(** [QTabBar.moveTab]: the tab at [from] is taken out and put back at
    [to]; nothing happens for an index out of range. *)
Definition moveTab (from to : nat) (w : QTabWidget Page) : QTabWidget Page :=
  match tabs w !! from with
  | Some tab =>
      if decide (to < length (tabs w)) then
        let rest := delete from (tabs w) in
        {| tabPosition := tabPosition w; movable := movable w;
           tabs := take to rest ++ tab :: drop to rest;
           currentIndex :=
             match currentIndex w with
             | Some c =>
                 if decide (c = from) then Some to
                 else if decide (from < c ∧ c <= to) then Some (c - 1)
                 else if decide (to <= c ∧ c < from) then Some (c + 1)
                 else Some c
             | None => None
             end |}
      else w
  | None => w
  end.

(** The user clicks a tab: the tab becomes the current one. *)
Definition clickTab (index : nat) (w : QTabWidget Page) : QTabWidget Page :=
  if decide (index < length (tabs w))
  then {| tabPosition := tabPosition w; movable := movable w; tabs := tabs w;
          currentIndex := Some index |}
  else w.

(** The user drags a tab: the press that starts the drag makes the pressed
    tab current, as a click does; the move that follows is honoured only on
    a movable bar. *)
Definition dragTab (from to : nat) (w : QTabWidget Page) : QTabWidget Page :=
  let pressed := clickTab from w in
  if movable pressed then moveTab from to pressed else pressed.

Definition count (w : QTabWidget Page) : nat := length (tabs w).
End QTabWidget.

Module TabWidget.

(** The three page attributes; a tab refers to its page by attribute. *)
Inductive page := Page_connections | Page_statefile | Page_aquisition.

Record t := {
  super : QTabWidget page;
  page_connections : ConnectionsPage.t;
  page_statefile : StatefilePage.t;
  page_aquisition : AquisitionPage.t;
}.

Definition __init__ : M unit t :=
  (* Create fixed tab bar at the top *)
  let bar := setMovable false (setTabPosition North QTabWidget_new) in
  (* create each page *)
  let* c := ConnectionsPage.__init__ in
  let* s := StatefilePage.__init__ in
  let* a := AquisitionPage.__init__ in
  (* add each page as a tab *)
  let bar := addTab Page_connections "Connections" bar in
  let bar := addTab Page_statefile "Route" bar in
  let bar := addTab Page_aquisition "Aquisition" bar in
  ret {| super := bar; page_connections := c; page_statefile := s; page_aquisition := a |}.

Definition set_super (b : QTabWidget page) (self : t) : t :=
  {| super := b; page_connections := page_connections self;
     page_statefile := page_statefile self; page_aquisition := page_aquisition self |}.
Definition set_page_connections (p : ConnectionsPage.t) (self : t) : t :=
  {| super := super self; page_connections := p;
     page_statefile := page_statefile self; page_aquisition := page_aquisition self |}.
Definition set_page_statefile (p : StatefilePage.t) (self : t) : t :=
  {| super := super self; page_connections := page_connections self;
     page_statefile := p; page_aquisition := page_aquisition self |}.
Definition set_page_aquisition (p : AquisitionPage.t) (self : t) : t :=
  {| super := super self; page_connections := page_connections self;
     page_statefile := page_statefile self; page_aquisition := p |}.

(** What the user can do: act on one of the pages, click a tab, or try to
    drag a tab to another position. *)
Inductive event :=
| on_connections (e : ConnectionsPage.event)
| on_statefile (e : StatefilePage.event)
| on_aquisition (e : AquisitionPage.event)
| click_tab (index : nat)
| drag_tab (from to : nat).

Definition handle (e : event) : M t unit :=
  match e with
  | on_connections e =>
      zoom page_connections set_page_connections (ConnectionsPage.handle e)
  | on_statefile e =>
      zoom page_statefile set_page_statefile (StatefilePage.handle e)
  | on_aquisition e =>
      zoom page_aquisition set_page_aquisition (AquisitionPage.handle e)
  | click_tab index => modify (fun self => set_super (clickTab index (super self)) self)
  | drag_tab from to => modify (fun self => set_super (dragTab from to (super self)) self)
  end.

End TabWidget.

(** ** class MainWindow(QMainWindow) and the application *)

Definition WINDOW_TITLE : string := "VISA device controller".

Module MainWindow.

(** [setCentralWidget(self.tabs)] shows the object held in [tabs]; there
    is one tab widget, reached through that attribute. *)
Record t := {
  windowTitle : string;
  tabs : TabWidget.t;
}.

(** Define layout of all widgets. *)
Definition _layout : M unit TabWidget.t := TabWidget.__init__.

(** Connect signals to slots: [pass]. *)
Definition connect : M t unit := ret tt.

Definition __init__ : M unit t :=
  let* tabs := _layout in
  construct {| windowTitle := WINDOW_TITLE; tabs := tabs |} connect.

Definition set_tabs (w : TabWidget.t) (self : t) : t :=
  {| windowTitle := windowTitle self; tabs := w |}.

Definition handle (e : TabWidget.event) : M t unit :=
  zoom tabs set_tabs (TabWidget.handle e).

(** [app.exec()]: the event loop handles the events one after another,
    each handler running to completion. *)
Fixpoint exec (events : list TabWidget.event) : M t unit :=
  match events with
  | [] => ret tt
  | e :: rest => let* _ := handle e in exec rest
  end.

End MainWindow.

(** The program: build the window, then run the event loop.  The result is
    the window at the end and every notification emitted since the start. *)
Definition app (events : list TabWidget.event) : Res (unit * MainWindow.t * list Emission) :=
  match MainWindow.__init__ tt with
  | Raise e => Raise e
  | Ok (window, _, out0) =>
      match MainWindow.exec events window with
      | Raise e => Raise e
      | Ok (_, window', out) => Ok (tt, window', out0 ++ out)
      end
  end.

(** The paths from the window to the widgets the properties speak of. *)
Definition visa_box (w : MainWindow.t) : VisaConnectionBox.t :=
  ConnectionsPage.visa (TabWidget.page_connections (MainWindow.tabs w)).
Definition route_table (w : MainWindow.t) : QTableWidget :=
  StatefileTable.table (StatefilePage.table_statefile (TabWidget.page_statefile (MainWindow.tabs w))).
Definition tab_bar (w : MainWindow.t) : QTabWidget TabWidget.page :=
  TabWidget.super (MainWindow.tabs w).

(** ** Vocabulary of the properties *)

(** [returns r Q]: the run [r] returned (it did not raise), and its result,
    final state and emitted notifications satisfy [Q]. *)
Definition returns {Self A} (r : Res (A * Self * list Emission))
    (Q : A -> Self -> list Emission -> Prop) : Prop :=
  match r with
  | Ok (a, s, out) => Q a s out
  | Raise _ => False
  end.

(** The storage box after a click on its checkbox. *)
Definition toggled (self : SqlConnectionBox.t) : SqlConnectionBox.t :=
  SqlConnectionBox.set_checkbox_status
    {| checkState := nextCheckState (SqlConnectionBox.checkbox_status self);
       isTristate := isTristate (SqlConnectionBox.checkbox_status self) |} self.

(** The notifications an event of the box emits, read off the state the
    event finds. *)
Definition local_emissions (e : LocalConnectionBox.event) (self : LocalConnectionBox.t)
    : list Emission :=
  match e with
  | LocalConnectionBox.finish_edit LocalConnectionBox.Line_dir =>
      [Emit signalLocalSettingsChanged (PyStr (text (LocalConnectionBox.line_dir self)))]
  | _ => []
  end.

(** The status indicator of the device box, the shape and headers of the
    route table, and the tabs of a bar that is not movable. *)
Definition fixtures_kept (w w' : TabWidget.t) : Prop :=
  VisaConnectionBox.lab_status_q (ConnectionsPage.visa (TabWidget.page_connections w')) =
    VisaConnectionBox.lab_status_q (ConnectionsPage.visa (TabWidget.page_connections w)) /\
  (let tb w := StatefileTable.table (StatefilePage.table_statefile (TabWidget.page_statefile w)) in
   rowCount (tb w') = rowCount (tb w) /\
   columnCount (tb w') = columnCount (tb w) /\
   horizontalHeaderItems (tb w') = horizontalHeaderItems (tb w)) /\
  movable (TabWidget.super w') = movable (TabWidget.super w) /\
  (movable (TabWidget.super w) = false -> tabs (TabWidget.super w') = tabs (TabWidget.super w)).

(** The fixtures as the constructors build them. *)
Definition as_built (w : MainWindow.t) : Prop :=
  VisaConnectionBox.lab_status_q (visa_box w) = {| QLabel_text := "Disconnected" |} /\
  (rowCount (route_table w) = 0 /\
   columnCount (route_table w) = 4 /\
   horizontalHeaderItems (route_table w) =
     [Some "Description"; Some "Units"; Some "Scan"; Some "Configure"]) /\
  movable (tab_bar w) = false /\
  tabs (tab_bar w) =
    [ (TabWidget.Page_connections, "Connections");
      (TabWidget.Page_statefile, "Route");
      (TabWidget.Page_aquisition, "Aquisition") ].

(** A box whose fields hold values, to try the handlers on. *)
Definition sql_sample : SqlConnectionBox.t :=
  SqlConnectionBox.set_line SqlConnectionBox.Line_server {| text := "db.lab" |}
    (SqlConnectionBox.set_line SqlConnectionBox.Line_table {| text := "runs" |}
       (SqlConnectionBox._layout "SQL server connection")).

(** A box whose fallback-directory and state-file fields hold values. *)
Definition local_sample : LocalConnectionBox.t :=
  LocalConnectionBox.set_line LocalConnectionBox.Line_dir {| text := "/data/fallback" |}
    (LocalConnectionBox.set_line LocalConnectionBox.Line_statefile {| text := "/data/route.state" |}
       (LocalConnectionBox._layout "Local settings")).

(** An event of the metadata panel, as an event of the window. *)
Definition metadata_event (e : MetadataBox.event) : TabWidget.event :=
  TabWidget.on_aquisition (AquisitionPage.on_metadata e).

(** Events of the three connection boxes, as events of the window. *)
Definition visa_event (e : VisaConnectionBox.event) : TabWidget.event :=
  TabWidget.on_connections (ConnectionsPage.on_visa e).
Definition sql_event (e : SqlConnectionBox.event) : TabWidget.event :=
  TabWidget.on_connections (ConnectionsPage.on_sql e).
Definition local_event (e : LocalConnectionBox.event) : TabWidget.event :=
  TabWidget.on_connections (ConnectionsPage.on_local e).

(** An emission whose payload has the type its signal was declared with. *)
Definition well_typed (em : Emission) : Prop :=
  type_of (em_payload em) = pyqtSignal (em_signal em).

(** What each of the three signals carries when it is emitted on a
    connections page in a given state: the argument the page's slot for
    that signal passes to [emit]. *)
Definition snapshot (p : ConnectionsPage.t) (sig : PySignal) : PyVal :=
  match sig with
  | signalVisaSettingsChanged =>
      PyStr (currentText (VisaConnectionBox.dd_device (ConnectionsPage.visa p)))
  | signalSqlSettingsChanged =>
      PyDict (SqlConnectionBox.settings (ConnectionsPage.sql p))
  | signalLocalSettingsChanged =>
      PyStr (text (LocalConnectionBox.line_dir (ConnectionsPage.local p)))
  end.

(** A checkbox that was never made tristate and is in one of the two
    states a click can give it. *)
Definition two_state (c : QCheckBox) : Prop :=
  isTristate c = false /\ checkState c <> PartiallyChecked.

(** The events of the storage box that end with a notification. *)
Definition sql_commit (e : SqlConnectionBox.event) : bool :=
  match e with
  | SqlConnectionBox.type_text _ _ => false
  | _ => true
  end.

(** The key under which [settings] files the text of a line edit. *)
Definition sql_key (w : SqlConnectionBox.line_edit) : string :=
  match w with
  | SqlConnectionBox.Line_server => "server"
  | SqlConnectionBox.Line_database => "database"
  | SqlConnectionBox.Line_table => "table"
  end.

(** Two handlers, one after the other. *)
Definition and_then {Self} (first second : M Self unit) : M Self unit :=
  let* _ := first in second.

(** A connection box with its input widgets put back as new: what is left
    is what [_layout] fixes (the title, the labels, the buttons). *)
Definition cleared_visa (b : VisaConnectionBox.t) : VisaConnectionBox.t :=
  VisaConnectionBox.set_dd_device QComboBox_new b.
Definition cleared_sql (b : SqlConnectionBox.t) : SqlConnectionBox.t :=
  SqlConnectionBox.set_checkbox_status QCheckBox_new
    (SqlConnectionBox.set_line SqlConnectionBox.Line_server QLineEdit_new
       (SqlConnectionBox.set_line SqlConnectionBox.Line_database QLineEdit_new
          (SqlConnectionBox.set_line SqlConnectionBox.Line_table QLineEdit_new b))).
Definition cleared_local (b : LocalConnectionBox.t) : LocalConnectionBox.t :=
  LocalConnectionBox.set_line LocalConnectionBox.Line_statefile QLineEdit_new
    (LocalConnectionBox.set_line LocalConnectionBox.Line_dir QLineEdit_new b).

(** * Reasoning about runs *)

Lemma fire_S {signal slot Self} `{EqDecision signal}
    (connect : list (signal * slot))
    (body : (signal -> list PyVal -> M Self unit) -> slot -> list PyVal -> M Self unit)
    (d : nat) (sig : signal) (args : list PyVal) :
  fire connect body (S d) sig args = run_slots body (fire connect body d) connect sig args.
Proof. reflexivity. Qed.

(** The limit leaves room for a handler and the signals it causes. *)
Lemma recursion_limit_S : { d | recursion_limit = S (S d) }.
Proof. exists 998. reflexivity. Qed.

Section Returns.
Context {Self A : Type}.
Implicit Types (r : Res (A * Self * list Emission)).
Implicit Types (Q : A -> Self -> list Emission -> Prop).

Lemma returns_mono r Q Q' :
  (forall a s out, Q a s out -> Q' a s out) -> returns r Q -> returns r Q'.
Proof. intros HQ. destruct r as [[[a s] out]|e]; simpl; auto. Qed.

Lemma returns_bind {B} (m : M Self A) (k : A -> M Self B) s
    (Q : B -> Self -> list Emission -> Prop) :
  returns (m s) (fun a s1 out1 =>
    returns (k a s1) (fun b s2 out2 => Q b s2 (out1 ++ out2))) ->
  returns (bind m k s) Q.
Proof.
  unfold bind. destruct (m s) as [[[a s1] out1]|e]; simpl; [|tauto].
  destruct (k a s1) as [[[b s2] out2]|e]; simpl; tauto.
Qed.

Lemma returns_zoom {Outer} (get : Outer -> Self) (set : Self -> Outer -> Outer)
    (m : M Self A) (o : Outer) (Q : A -> Outer -> list Emission -> Prop) :
  returns (m (get o)) (fun a c out => Q a (set c o) out) ->
  returns (zoom get set m o) Q.
Proof. unfold zoom. destruct (m (get o)) as [[[a c] out]|e]; simpl; tauto. Qed.
End Returns.

(** Symbolic execution of a handler: expose two levels of the dispatcher
    (the handler, and the Qt signals it causes), then run the monad. *)
Ltac limit := destruct recursion_limit_S as [?d ->]; rewrite ?fire_S.

Ltac run :=
  simpl;
  unfold bind, gets, modify, ret, emit, raise, call_slot, slot0, slot1, slot0_nested;
  simpl;
  repeat (case_decide; simpl; try done; try congruence);
  try done.

Arguments SqlConnectionBox.settings : simpl never.

(** ** The device box *)

Lemma visa_select_new (self : VisaConnectionBox.t) (V : string) :
  V <> currentText (VisaConnectionBox.dd_device self) ->
  VisaConnectionBox.handle (VisaConnectionBox.select_device V) self =
  Ok (tt,
      VisaConnectionBox.set_dd_device
        {| itemTexts := itemTexts (VisaConnectionBox.dd_device self); currentText := V |} self,
      [Emit signalVisaSettingsChanged (PyStr V)]).
Proof.
  intros HV. unfold VisaConnectionBox.handle, VisaConnectionBox.fire. limit. run.
Qed.

Lemma visa_select_same (self : VisaConnectionBox.t) :
  VisaConnectionBox.handle
    (VisaConnectionBox.select_device (currentText (VisaConnectionBox.dd_device self))) self =
  Ok (tt, self, []).
Proof. unfold VisaConnectionBox.handle. run. Qed.

Lemma visa_activate (self : VisaConnectionBox.t) (index : Z) :
  VisaConnectionBox.handle (VisaConnectionBox.activate_device index) self = Ok (tt, self, []).
Proof. unfold VisaConnectionBox.handle, VisaConnectionBox.fire. limit. run. Qed.

(** No event of the box touches the status indicator. *)
Lemma visa_handle_status (e : VisaConnectionBox.event) (self : VisaConnectionBox.t) :
  returns (VisaConnectionBox.handle e self) (fun _ self' _ =>
    VisaConnectionBox.lab_status_q self' = VisaConnectionBox.lab_status_q self).
Proof.
  destruct e as [V|index].
  - destruct (decide (V = currentText (VisaConnectionBox.dd_device self))) as [->|HV].
    + rewrite visa_select_same. reflexivity.
    + rewrite visa_select_new by done. reflexivity.
  - rewrite visa_activate. reflexivity.
Qed.

(** ** The storage box *)

Lemma sql_toggle (self : SqlConnectionBox.t) :
  SqlConnectionBox.handle SqlConnectionBox.toggle_logging self =
  Ok (tt, toggled self,
      [Emit signalSqlSettingsChanged (PyDict (SqlConnectionBox.settings (toggled self)))]).
Proof. unfold SqlConnectionBox.handle, SqlConnectionBox.fire. limit. run. Qed.

Lemma sql_finish_edit (w : SqlConnectionBox.line_edit) (self : SqlConnectionBox.t) :
  SqlConnectionBox.handle (SqlConnectionBox.finish_edit w) self =
  Ok (tt, self, [Emit signalSqlSettingsChanged (PyDict (SqlConnectionBox.settings self))]).
Proof.
  unfold SqlConnectionBox.handle, SqlConnectionBox.fire. limit.
  destruct w; run.
Qed.

Lemma sql_type_text (w : SqlConnectionBox.line_edit) (s : string) (self : SqlConnectionBox.t) :
  SqlConnectionBox.handle (SqlConnectionBox.type_text w s) self =
  Ok (tt, SqlConnectionBox.set_line w {| text := s |} self, []).
Proof.
  unfold SqlConnectionBox.handle, SqlConnectionBox.fire. limit.
  destruct w; run.
Qed.

Lemma sql_handle (e : SqlConnectionBox.event) (self : SqlConnectionBox.t) :
  exists self' out, SqlConnectionBox.handle e self = Ok (tt, self', out).
Proof.
  destruct e as [|w s|w].
  - rewrite sql_toggle. eauto.
  - rewrite sql_type_text. eauto.
  - rewrite sql_finish_edit. eauto.
Qed.

(** The dictionary [settings] builds has the four keys, each holding the
    value read from its widget. *)
Lemma settings_enabled (self : SqlConnectionBox.t) :
  SqlConnectionBox.settings self !! "enabled" =
  Some (PyCheckState (checkState (SqlConnectionBox.checkbox_status self))).
Proof. reflexivity. Qed.

Lemma settings_server (self : SqlConnectionBox.t) :
  SqlConnectionBox.settings self !! "server" =
  Some (PyStr (text (SqlConnectionBox.line_server self))).
Proof. reflexivity. Qed.

Lemma settings_database (self : SqlConnectionBox.t) :
  SqlConnectionBox.settings self !! "database" =
  Some (PyStr (text (SqlConnectionBox.line_database self))).
Proof. reflexivity. Qed.

Lemma settings_table (self : SqlConnectionBox.t) :
  SqlConnectionBox.settings self !! "table" =
  Some (PyStr (text (SqlConnectionBox.line_table self))).
Proof. reflexivity. Qed.

Lemma settings_keys (self : SqlConnectionBox.t) :
  dom (SqlConnectionBox.settings self) =
  ({[ "enabled"; "server"; "database"; "table" ]} : gset string).
Proof.
  unfold SqlConnectionBox.settings. rewrite !dom_insert_L, dom_singleton_L. set_solver.
Qed.

(** ** The local settings box *)

Lemma local_click_dir (user : Picker) (self : LocalConnectionBox.t) :
  LocalConnectionBox.handle (LocalConnectionBox.click LocalConnectionBox.Button_dir user) self =
  Ok (tt,
      LocalConnectionBox.set_line LocalConnectionBox.Line_dir
        {| text := getExistingDirectory (chosen_directory user) |} self,
      []).
Proof.
  unfold LocalConnectionBox.handle, LocalConnectionBox.fire. limit. run.
  unfold LocalConnectionBox.onDirectoryButtonClicked, LocalConnectionBox.setText. run.
Qed.

Lemma local_click_statefile (user : Picker) (self : LocalConnectionBox.t) :
  LocalConnectionBox.handle (LocalConnectionBox.click LocalConnectionBox.Button_statefile user) self =
  Ok (tt,
      LocalConnectionBox.set_line LocalConnectionBox.Line_statefile
        {| text := (getOpenFileName (chosen_file user)).1 |} self,
      []).
Proof.
  unfold LocalConnectionBox.handle, LocalConnectionBox.fire. limit. run.
  unfold LocalConnectionBox.onStatefileButtonClicked, LocalConnectionBox.setText. run.
Qed.

Lemma local_finish_dir (self : LocalConnectionBox.t) :
  LocalConnectionBox.handle (LocalConnectionBox.finish_edit LocalConnectionBox.Line_dir) self =
  Ok (tt, self,
      [Emit signalLocalSettingsChanged (PyStr (text (LocalConnectionBox.line_dir self)))]).
Proof. unfold LocalConnectionBox.handle, LocalConnectionBox.fire. limit. run. Qed.

Lemma local_finish_statefile (self : LocalConnectionBox.t) :
  LocalConnectionBox.handle (LocalConnectionBox.finish_edit LocalConnectionBox.Line_statefile) self =
  Ok (tt, self, []).
Proof. unfold LocalConnectionBox.handle, LocalConnectionBox.fire. limit. run. Qed.

Lemma local_type_text (w : LocalConnectionBox.line_edit) (s : string) (self : LocalConnectionBox.t) :
  LocalConnectionBox.handle (LocalConnectionBox.type_text w s) self =
  Ok (tt, LocalConnectionBox.set_line w {| text := s |} self, []).
Proof.
  unfold LocalConnectionBox.handle, LocalConnectionBox.fire. limit.
  destruct w; run.
Qed.

Lemma local_handle (e : LocalConnectionBox.event) (self : LocalConnectionBox.t) :
  exists self', LocalConnectionBox.handle e self = Ok (tt, self', local_emissions e self).
Proof.
  destruct e as [[] user|w s|[]]; cbn [local_emissions].
  - rewrite local_click_statefile. eauto.
  - rewrite local_click_dir. eauto.
  - rewrite local_type_text. eauto.
  - rewrite local_finish_statefile. eauto.
  - rewrite local_finish_dir. eauto.
Qed.

(** ** The boxes that connect nothing *)

Lemma metadata_handle (e : MetadataBox.event) (self : MetadataBox.t) :
  exists self', MetadataBox.handle e self = Ok (tt, self', []).
Proof.
  unfold MetadataBox.handle, MetadataBox.fire. limit.
  destruct e as [w s|w|w]; run; eauto.
Qed.

Lemma metadata_type_text (w : MetadataBox.line_edit) (s : string) (self : MetadataBox.t) :
  MetadataBox.handle (MetadataBox.type_text w s) self =
  Ok (tt, MetadataBox.set_line w {| text := s |} self, []).
Proof. unfold MetadataBox.handle, MetadataBox.fire. limit. run. Qed.

Lemma source_handle (e : StatefileSourceBox.event) (self : StatefileSourceBox.t) :
  exists self', StatefileSourceBox.handle e self = Ok (tt, self', []).
Proof.
  unfold StatefileSourceBox.handle, StatefileSourceBox.fire. limit.
  destruct e as [V|]; run; eauto.
Qed.

Lemma table_handle (e : StatefileTable.event) (self : StatefileTable.t) :
  StatefileTable.handle e self =
  Ok (tt,
      match e with
      | StatefileTable.edit_cell row column s =>
          {| StatefileTable.title := StatefileTable.title self;
             StatefileTable.table := editCell row column s (StatefileTable.table self) |}
      end, []).
Proof. destruct e. reflexivity. Qed.

Lemma editCell_shape (row column : nat) (s : string) (w : QTableWidget) :
  rowCount (editCell row column s w) = rowCount w /\
  columnCount (editCell row column s w) = columnCount w /\
  horizontalHeaderItems (editCell row column s w) = horizontalHeaderItems w.
Proof. unfold editCell. case_decide; simpl; auto. Qed.

Lemma aquisition_handle (e : AquisitionPage.event) (self : AquisitionPage.t) :
  exists self', AquisitionPage.handle e self = Ok (tt, self', []).
Proof.
  destruct e as [b|e].
  - unfold AquisitionPage.handle, AquisitionPage.fire. limit. run. eauto.
  - simpl. unfold zoom.
    destruct (metadata_handle e (AquisitionPage.box_metadata self)) as [m' ->]. eauto.
Qed.

(** ** The tab bar *)

Lemma clickTab_tabs {Page} (index : nat) (w : QTabWidget Page) :
  tabs (clickTab index w) = tabs w /\ movable (clickTab index w) = movable w.
Proof. unfold clickTab. case_decide; simpl; auto. Qed.

Lemma moveTab_movable {Page} (from to : nat) (w : QTabWidget Page) :
  movable (moveTab from to w) = movable w.
Proof.
  unfold moveTab. destruct (tabs w !! from); [case_decide|]; reflexivity.
Qed.

Lemma dragTab_movable {Page} (from to : nat) (w : QTabWidget Page) :
  movable (dragTab from to w) = movable w.
Proof.
  unfold dragTab. destruct (clickTab_tabs from w) as [_ Hm].
  destruct (movable (clickTab from w)) eqn:Hpressed.
  - rewrite moveTab_movable. congruence.
  - congruence.
Qed.

(** On a bar that is not movable a drag leaves the tabs where they are: it
    only makes the pressed tab current. *)
Lemma dragTab_fixed {Page} (from to : nat) (w : QTabWidget Page) :
  movable w = false ->
  dragTab from to w = clickTab from w /\ tabs (dragTab from to w) = tabs w.
Proof.
  intros Hm. unfold dragTab. destruct (clickTab_tabs from w) as [Ht Hm'].
  rewrite Hm', Hm. auto.
Qed.

(** ** The window: what no event changes *)

Lemma tabwidget_handle (e : TabWidget.event) (w : TabWidget.t) :
  returns (TabWidget.handle e w) (fun _ w' _ => fixtures_kept w w').
Proof.
  destruct e as [[e|e|e]|[e|e]|e|index|from to]; simpl.
  - apply returns_zoom, returns_zoom.
    eapply returns_mono; [|apply visa_handle_status].
    intros a b out Hb. unfold fixtures_kept; simpl. auto.
  - apply returns_zoom. unfold zoom.
    destruct (sql_handle e (ConnectionsPage.sql (TabWidget.page_connections w)))
      as (b & out & ->).
    unfold fixtures_kept; simpl. auto.
  - apply returns_zoom. unfold zoom.
    destruct (local_handle e (ConnectionsPage.local (TabWidget.page_connections w))) as [b ->].
    unfold fixtures_kept; simpl. auto.
  - apply returns_zoom. unfold zoom.
    destruct (source_handle e (StatefilePage.box_source (TabWidget.page_statefile w))) as [b ->].
    unfold fixtures_kept; simpl. auto.
  - apply returns_zoom. unfold zoom. rewrite table_handle.
    destruct e as [row column s]. unfold fixtures_kept; simpl.
    pose proof (editCell_shape row column s
      (StatefileTable.table (StatefilePage.table_statefile (TabWidget.page_statefile w)))).
    tauto.
  - unfold zoom.
    destruct (aquisition_handle e (TabWidget.page_aquisition w)) as [p ->].
    unfold fixtures_kept; simpl. auto.
  - unfold modify, fixtures_kept; simpl.
    destruct (clickTab_tabs index (TabWidget.super w)) as [-> ->]. auto.
  - unfold modify, fixtures_kept; simpl.
    rewrite dragTab_movable. repeat split; auto.
    intros Hm. apply dragTab_fixed, Hm.
Qed.

(** Every event is handled to completion, and keeps the fixtures. *)
Lemma window_handle (e : TabWidget.event) (w : MainWindow.t) :
  returns (MainWindow.handle e w) (fun _ w' _ =>
    fixtures_kept (MainWindow.tabs w) (MainWindow.tabs w')).
Proof.
  apply returns_zoom. eapply returns_mono; [|apply tabwidget_handle].
  intros a t out Ht. exact Ht.
Qed.

(** An invariant of the handlers is an invariant of the event loop. *)
Lemma exec_invariant (I : MainWindow.t -> Prop) :
  (forall e w, I w -> returns (MainWindow.handle e w) (fun _ w' _ => I w')) ->
  forall events w, I w -> returns (MainWindow.exec events w) (fun _ w' _ => I w').
Proof.
  intros Hstep events. induction events as [|e events IH]; intros w Hw.
  - exact Hw.
  - simpl. apply returns_bind.
    eapply returns_mono; [|apply Hstep, Hw].
    intros a w1 out1 Hw1. simpl.
    eapply returns_mono; [|apply IH, Hw1].
    intros b w2 out2 Hw2. exact Hw2.
Qed.

Lemma init_as_built :
  returns (MainWindow.__init__ tt) (fun w _ out => as_built w /\ out = []).
Proof. vm_compute. repeat split; reflexivity. Qed.

Lemma handle_as_built (e : TabWidget.event) (w : MainWindow.t) :
  as_built w -> returns (MainWindow.handle e w) (fun _ w' _ => as_built w').
Proof.
  intros (Hstatus & (Hrows & Hcols & Hheaders) & Hmovable & Htabs).
  eapply returns_mono; [|apply window_handle].
  intros a w' out (Hs & (Hr & Hc & Hh) & Hm & Ht).
  unfold as_built, visa_box, route_table, tab_bar in *. simpl in *.
  rewrite Hs, Hr, Hc, Hh, Hm, (Ht Hmovable). auto.
Qed.

(** In every state the application reaches, the fixtures are as built;
    and the application reaches a state after every sequence of events. *)
Lemma app_as_built (events : list TabWidget.event) :
  exists w out, app events = Ok (tt, w, out) /\ as_built w.
Proof.
  unfold app.
  pose proof init_as_built as Hinit.
  destruct (MainWindow.__init__ tt) as [[[w0 []] out0]|err]; simpl in Hinit; [|tauto].
  destruct Hinit as [Hw0 ->].
  pose proof (exec_invariant as_built handle_as_built events w0 Hw0) as Hrun.
  destruct (MainWindow.exec events w0) as [[[[] w] out]|err]; simpl in Hrun; [|tauto].
  eauto.
Qed.

(** * The properties *)

(** ** Storage connection panel *)

(** C1.  Every single-field commit of the storage panel emits exactly one
    storage-settings notification, whose payload is the full record read
    from the four fields at the moment of emission.  Toggling the checkbox
    moves it to its next check state, leaves the three texts alone, and the
    one notification carries the new check state and the three current
    texts; ending an edit in any of the three fields changes nothing and
    emits one notification carrying the current check state and the three
    current texts.  (Typing alone, before the edit ends, emits nothing.) *)
Theorem sql_commit_emits_full_record :
  (forall self : SqlConnectionBox.t,
     exists self' d,
       SqlConnectionBox.handle SqlConnectionBox.toggle_logging self =
         Ok (tt, self', [Emit signalSqlSettingsChanged (PyDict d)]) /\
       checkState (SqlConnectionBox.checkbox_status self') =
         nextCheckState (SqlConnectionBox.checkbox_status self) /\
       (forall w, SqlConnectionBox.line w self' = SqlConnectionBox.line w self) /\
       dom d = ({[ "enabled"; "server"; "database"; "table" ]} : gset string) /\
       d !! "enabled" = Some (PyCheckState (checkState (SqlConnectionBox.checkbox_status self'))) /\
       d !! "server" = Some (PyStr (text (SqlConnectionBox.line_server self'))) /\
       d !! "database" = Some (PyStr (text (SqlConnectionBox.line_database self'))) /\
       d !! "table" = Some (PyStr (text (SqlConnectionBox.line_table self')))) /\
  (forall (self : SqlConnectionBox.t) (w : SqlConnectionBox.line_edit),
     exists d,
       SqlConnectionBox.handle (SqlConnectionBox.finish_edit w) self =
         Ok (tt, self, [Emit signalSqlSettingsChanged (PyDict d)]) /\
       dom d = ({[ "enabled"; "server"; "database"; "table" ]} : gset string) /\
       d !! "enabled" = Some (PyCheckState (checkState (SqlConnectionBox.checkbox_status self))) /\
       d !! "server" = Some (PyStr (text (SqlConnectionBox.line_server self))) /\
       d !! "database" = Some (PyStr (text (SqlConnectionBox.line_database self))) /\
       d !! "table" = Some (PyStr (text (SqlConnectionBox.line_table self)))) /\
  (forall (self : SqlConnectionBox.t) (w : SqlConnectionBox.line_edit) (s : string),
     exists self',
       SqlConnectionBox.handle (SqlConnectionBox.type_text w s) self = Ok (tt, self', []) /\
       text (SqlConnectionBox.line w self') = s).
Proof.
  split; [|split].
  - intros self. exists (toggled self), (SqlConnectionBox.settings (toggled self)).
    split; [apply sql_toggle|].
    split; [reflexivity|]. split; [intros []; reflexivity|].
    split; [apply settings_keys|].
    repeat split; reflexivity.
  - intros self w. exists (SqlConnectionBox.settings self).
    split; [apply sql_finish_edit|].
    split; [apply settings_keys|].
    repeat split; reflexivity.
  - intros self w s. eexists. split; [apply sql_type_text|].
    destruct w; reflexivity.
Qed.

Example sql_sample_finish_database :
  emitted (SqlConnectionBox.handle
             (SqlConnectionBox.finish_edit SqlConnectionBox.Line_database) sql_sample) =
  Some [Emit signalSqlSettingsChanged
          (PyDict {[ "enabled" := PyCheckState Unchecked; "server" := PyStr "db.lab";
                     "database" := PyStr ""; "table" := PyStr "runs" ]})].
Proof. vm_compute. reflexivity. Qed.

(** C3, as the specification states it, fails: the ['enabled'] entry of the
    payload emitted when the checkbox of a new box is toggled is not a
    boolean. *)
Lemma sql_enabled_not_boolean :
  ~ exists self' d b,
      SqlConnectionBox.handle SqlConnectionBox.toggle_logging
        (SqlConnectionBox._layout "SQL server connection") =
        Ok (tt, self', [Emit signalSqlSettingsChanged (PyDict d)]) /\
      d !! "enabled" = Some (PyBool b).
Proof.
  intros (self' & d & b & Hrun & Hd).
  rewrite sql_toggle in Hrun. injection Hrun as _ <-.
  rewrite settings_enabled in Hd. discriminate.
Qed.

(** C3, amended.  Every notification the storage panel emits is a
    storage-settings notification whose payload is the dictionary
    [settings] assembles from the four fields at that moment; its
    ['enabled'] entry is the checkbox's [Qt.CheckState] (not a boolean),
    its ['server'], ['database'] and ['table'] entries are strings. *)
Theorem sql_payload_types (self : SqlConnectionBox.t) (e : SqlConnectionBox.event) :
  exists self' out,
    SqlConnectionBox.handle e self = Ok (tt, self', out) /\
    Forall (fun em =>
      em_signal em = signalSqlSettingsChanged /\
      exists d,
        em_payload em = PyDict d /\
        d = SqlConnectionBox.settings self' /\
        dom d = ({[ "enabled"; "server"; "database"; "table" ]} : gset string) /\
        type_of <$> d !! "enabled" = Some TCheckState /\
        type_of <$> d !! "server" = Some Tstr /\
        type_of <$> d !! "database" = Some Tstr /\
        type_of <$> d !! "table" = Some Tstr) out.
Proof.
  assert (Hrecord : forall s : SqlConnectionBox.t,
    Forall (fun em =>
      em_signal em = signalSqlSettingsChanged /\
      exists d,
        em_payload em = PyDict d /\
        d = SqlConnectionBox.settings s /\
        dom d = ({[ "enabled"; "server"; "database"; "table" ]} : gset string) /\
        type_of <$> d !! "enabled" = Some TCheckState /\
        type_of <$> d !! "server" = Some Tstr /\
        type_of <$> d !! "database" = Some Tstr /\
        type_of <$> d !! "table" = Some Tstr)
      [Emit signalSqlSettingsChanged (PyDict (SqlConnectionBox.settings s))]).
  { intros s. apply Forall_singleton. split; [reflexivity|].
    exists (SqlConnectionBox.settings s).
    split; [reflexivity|]. split; [reflexivity|]. split; [apply settings_keys|].
    repeat split; reflexivity. }
  destruct e as [|w s|w].
  - rewrite sql_toggle. eauto.
  - rewrite sql_type_text. eexists _, []. split; [reflexivity|constructor].
  - rewrite sql_finish_edit. eauto.
Qed.

(** ** Local settings panel *)

(** C2, as the specification states it, fails: when the directory picker is
    cancelled the fallback-directory field does not keep its text. *)
Lemma directory_cancel_overwrites :
  ~ exists self' out,
      LocalConnectionBox.handle
        (LocalConnectionBox.click LocalConnectionBox.Button_dir cancels) local_sample =
        Ok (tt, self', out) /\
      text (LocalConnectionBox.line_dir self') = text (LocalConnectionBox.line_dir local_sample).
Proof.
  intros (self' & out & Hrun & Htext).
  rewrite local_click_dir in Hrun. injection Hrun as <- _.
  vm_compute in Htext. discriminate.
Qed.

(** C2, amended.  The browse button of the fallback directory never raises
    and writes what the picker returns into the field: the chosen path when
    the user confirms a directory, the empty string when the user cancels.
    The state-file field is left alone. *)
Theorem directory_picker_sets_field :
  (forall (self : LocalConnectionBox.t) (dir : string),
     exists self' out,
       LocalConnectionBox.handle
         (LocalConnectionBox.click LocalConnectionBox.Button_dir (confirms_directory dir)) self =
         Ok (tt, self', out) /\
       text (LocalConnectionBox.line_dir self') = dir /\
       LocalConnectionBox.line_statefile self' = LocalConnectionBox.line_statefile self) /\
  (forall self : LocalConnectionBox.t,
     exists self' out,
       LocalConnectionBox.handle
         (LocalConnectionBox.click LocalConnectionBox.Button_dir cancels) self =
         Ok (tt, self', out) /\
       text (LocalConnectionBox.line_dir self') = "" /\
       LocalConnectionBox.line_statefile self' = LocalConnectionBox.line_statefile self).
Proof.
  split.
  - intros self dir. rewrite local_click_dir. eexists _, _. split; [reflexivity|].
    split; reflexivity.
  - intros self. rewrite local_click_dir. eexists _, _. split; [reflexivity|].
    split; reflexivity.
Qed.

Example directory_cancel_sample :
  (fun self' => text (LocalConnectionBox.line_dir self')) <$>
    final (LocalConnectionBox.handle
             (LocalConnectionBox.click LocalConnectionBox.Button_dir cancels) local_sample) =
  Some "".
Proof. vm_compute. reflexivity. Qed.

(** C4.  Ending a manual edit of the fallback-directory field emits exactly
    one path-change notification carrying the field's current text, and
    nothing else the panel can do emits any notification; in particular the
    browse button of that same field stores the picker's result in the
    field and emits nothing. *)
Theorem local_only_edit_finished_notifies :
  (forall self : LocalConnectionBox.t,
     LocalConnectionBox.handle
       (LocalConnectionBox.finish_edit LocalConnectionBox.Line_dir) self =
     Ok (tt, self,
         [Emit signalLocalSettingsChanged (PyStr (text (LocalConnectionBox.line_dir self)))])) /\
  (forall (self : LocalConnectionBox.t) (user : Picker),
     exists self',
       LocalConnectionBox.handle
         (LocalConnectionBox.click LocalConnectionBox.Button_dir user) self =
         Ok (tt, self', []) /\
       text (LocalConnectionBox.line_dir self') = getExistingDirectory (chosen_directory user)) /\
  (forall (self : LocalConnectionBox.t) (e : LocalConnectionBox.event),
     exists self',
       LocalConnectionBox.handle e self =
       Ok (tt, self',
           match e with
           | LocalConnectionBox.finish_edit LocalConnectionBox.Line_dir =>
               [Emit signalLocalSettingsChanged (PyStr (text (LocalConnectionBox.line_dir self)))]
           | _ => []
           end)).
Proof.
  split; [|split].
  - apply local_finish_dir.
  - intros self user. rewrite local_click_dir. eexists. split; reflexivity.
  - intros self e. apply local_handle.
Qed.

(** Browsing and then ending an edit, in the running application: the one
    notification comes from the ended edit and carries the path the picker
    stored. *)
Example browse_then_finish_sample :
  emitted (app
    [ TabWidget.on_connections (ConnectionsPage.on_local
        (LocalConnectionBox.click LocalConnectionBox.Button_dir (confirms_directory "/mnt/backup")));
      TabWidget.on_connections (ConnectionsPage.on_local
        (LocalConnectionBox.finish_edit LocalConnectionBox.Line_dir)) ]) =
  Some [Emit signalLocalSettingsChanged (PyStr "/mnt/backup")].
Proof. vm_compute. reflexivity. Qed.

(** C10.  The browse button of the state file writes the first element of
    the picker's result into the state-file field unconditionally: the
    chosen file name when the user confirms, the empty string (whatever the
    field held) when the user cancels.  Neither case emits a notification,
    and ending an edit of the state-file field emits none either. *)
Theorem statefile_picker_writes_unconditionally :
  (forall (self : LocalConnectionBox.t) (name filter : string),
     exists self',
       LocalConnectionBox.handle
         (LocalConnectionBox.click LocalConnectionBox.Button_statefile
            (confirms_file name filter)) self =
         Ok (tt, self', []) /\
       text (LocalConnectionBox.line_statefile self') = name) /\
  (forall self : LocalConnectionBox.t,
     exists self',
       LocalConnectionBox.handle
         (LocalConnectionBox.click LocalConnectionBox.Button_statefile cancels) self =
         Ok (tt, self', []) /\
       text (LocalConnectionBox.line_statefile self') = "") /\
  (forall self : LocalConnectionBox.t,
     LocalConnectionBox.handle
       (LocalConnectionBox.finish_edit LocalConnectionBox.Line_statefile) self =
     Ok (tt, self, [])).
Proof.
  split; [|split].
  - intros self name filter. rewrite local_click_statefile. eexists. split; reflexivity.
  - intros self. rewrite local_click_statefile. eexists. split; reflexivity.
  - apply local_finish_statefile.
Qed.

Example statefile_cancel_sample :
  text (LocalConnectionBox.line_statefile local_sample) = "/data/route.state" /\
  (fun self' => text (LocalConnectionBox.line_statefile self')) <$>
    final (LocalConnectionBox.handle
             (LocalConnectionBox.click LocalConnectionBox.Button_statefile cancels) local_sample) =
  Some "".
Proof. split; vm_compute; reflexivity. Qed.

(** ** Device connection panel *)

(** C5.  Building the panel (alone, or as part of the whole window) emits
    no notification; and when the selector's selection changes to a value
    [V], exactly one device-selection notification is emitted, whose
    payload is [V] itself, whatever [V] is. *)
Theorem device_selection_notifies_once (self : VisaConnectionBox.t) (V : string)
    (Hchange : V <> currentText (VisaConnectionBox.dd_device self)) :
  emitted (VisaConnectionBox.__init__ tt) = Some [] /\
  emitted (app []) = Some [] /\
  exists self',
    VisaConnectionBox.handle (VisaConnectionBox.select_device V) self =
      Ok (tt, self', [Emit signalVisaSettingsChanged (PyStr V)]) /\
    currentText (VisaConnectionBox.dd_device self') = V.
Proof.
  split; [reflexivity|]. split; [vm_compute; reflexivity|].
  rewrite visa_select_new by exact Hchange.
  eexists. split; reflexivity.
Qed.

(** C5 at a concrete input: a new panel, whose selector is empty, and the
    selection of the device "GPIB0::22::INSTR". *)
Lemma device_selection_witness :
  "GPIB0::22::INSTR" <>
    currentText (VisaConnectionBox.dd_device (VisaConnectionBox._layout "VISA device connection")) /\
  (emitted (VisaConnectionBox.__init__ tt) = Some [] /\
   emitted (app []) = Some [] /\
   exists self',
     VisaConnectionBox.handle (VisaConnectionBox.select_device "GPIB0::22::INSTR")
       (VisaConnectionBox._layout "VISA device connection") =
       Ok (tt, self', [Emit signalVisaSettingsChanged (PyStr "GPIB0::22::INSTR")]) /\
     currentText (VisaConnectionBox.dd_device self') = "GPIB0::22::INSTR").
Proof.
  split; [simpl; discriminate|].
  apply (device_selection_notifies_once
           (VisaConnectionBox._layout "VISA device connection") "GPIB0::22::INSTR").
  simpl; discriminate.
Defined.

(** ** Tab container *)

(** C6.  After every sequence of events the tab container has exactly three
    tabs, in the order in which the constructor adds them: the connections
    page, the route page, the acquisition page (the list gives each tab's
    page and the label the source writes for it); the bar is not movable,
    and an attempt to drag any tab to any position leaves the tabs and
    their order as they are.  All a drag does is make the pressed tab the
    current one. *)
Theorem tabs_fixed (events : list TabWidget.event) :
  exists w out,
    app events = Ok (tt, w, out) /\
    count (tab_bar w) = 3 /\
    tabs (tab_bar w) =
      [ (TabWidget.Page_connections, "Connections");
        (TabWidget.Page_statefile, "Route");
        (TabWidget.Page_aquisition, "Aquisition") ] /\
    movable (tab_bar w) = false /\
    forall from to,
      tabs (dragTab from to (tab_bar w)) = tabs (tab_bar w) /\
      count (dragTab from to (tab_bar w)) = 3 /\
      dragTab from to (tab_bar w) = clickTab from (tab_bar w).
Proof.
  destruct (app_as_built events) as (w & out & Hrun & _ & _ & Hmovable & Htabs).
  exists w, out. split; [exact Hrun|].
  split; [unfold count; rewrite Htabs; reflexivity|].
  split; [exact Htabs|]. split; [exact Hmovable|].
  intros from to. destruct (dragTab_fixed from to (tab_bar w) Hmovable) as [Hdrag Hsame].
  split; [exact Hsame|]. split; [|exact Hdrag].
  unfold count. rewrite Hsame, Htabs. reflexivity.
Qed.

Example drag_sample :
  (fun w => ((tabs (tab_bar w)).*1, currentIndex (tab_bar w))) <$>
    final (app [TabWidget.click_tab 1; TabWidget.drag_tab 2 0]) =
  Some ([TabWidget.Page_connections; TabWidget.Page_statefile; TabWidget.Page_aquisition],
        Some 2).
Proof. vm_compute. reflexivity. Qed.

(** ** Route table *)

(** C7.  After every sequence of events the route table has exactly four
    columns, headed "Description", "Units", "Scan", "Configure" in this
    order, and no row. *)
Theorem route_table_shape (events : list TabWidget.event) :
  exists w out,
    app events = Ok (tt, w, out) /\
    columnCount (route_table w) = 4 /\
    horizontalHeaderItems (route_table w) =
      [Some "Description"; Some "Units"; Some "Scan"; Some "Configure"] /\
    rowCount (route_table w) = 0.
Proof.
  destruct (app_as_built events) as (w & out & Hrun & _ & (Hrows & Hcols & Hheaders) & _).
  exists w, out. auto.
Qed.

(** ** Metadata panel *)

Lemma window_metadata_events (events : list MetadataBox.event) (w : MainWindow.t) :
  exists w', MainWindow.exec (map metadata_event events) w = Ok (tt, w', []).
Proof.
  revert w. induction events as [|e events IH]; intros w; simpl.
  - eexists. reflexivity.
  - unfold bind, MainWindow.handle. simpl. unfold zoom.
    destruct (metadata_handle e
      (AquisitionPage.box_metadata (TabWidget.page_aquisition (MainWindow.tabs w)))) as [m ->].
    match goal with |- context [MainWindow.exec _ ?w1] => destruct (IH w1) as [w' ->] end.
    eexists. reflexivity.
Qed.

(** C8.  The metadata panel never emits a notification: no event of the
    panel does, from any state, and neither does any sequence of its events
    in the window; a typed value is kept in its field, where it can be
    read. *)
Theorem metadata_never_notifies :
  (forall (e : MetadataBox.event) (self : MetadataBox.t),
     exists self', MetadataBox.handle e self = Ok (tt, self', [])) /\
  (forall (events : list MetadataBox.event) (w : MainWindow.t),
     exists w', MainWindow.exec (map metadata_event events) w = Ok (tt, w', [])) /\
  (forall (x : MetadataBox.line_edit) (s : string) (self : MetadataBox.t),
     exists self',
       MetadataBox.handle (MetadataBox.type_text x s) self = Ok (tt, self', []) /\
       text (MetadataBox.line x self') = s).
Proof.
  split; [|split].
  - apply metadata_handle.
  - apply window_metadata_events.
  - intros x s self. rewrite metadata_type_text. eexists. split; [reflexivity|].
    destruct x; reflexivity.
Qed.

(** ** Connection status indicator *)

(** C9.  The status indicator of the device panel reads "Disconnected" when
    the window is built and in every state the application reaches. *)
Theorem status_always_disconnected (events : list TabWidget.event) :
  exists w out,
    app events = Ok (tt, w, out) /\
    QLabel_text (VisaConnectionBox.lab_status_q (visa_box w)) = "Disconnected".
Proof.
  destruct (app_as_built events) as (w & out & Hrun & Hstatus & _).
  exists w, out. split; [exact Hrun|]. rewrite Hstatus. reflexivity.
Qed.

(** * Further properties of the code *)

(** ** Every notification is a snapshot *)

Lemma snapshot_well_typed (p : ConnectionsPage.t) (sig : PySignal) :
  type_of (snapshot p sig) = pyqtSignal sig.
Proof. destruct sig; reflexivity. Qed.

Lemma visa_handle (e : VisaConnectionBox.event) (self : VisaConnectionBox.t) :
  exists self' out,
    VisaConnectionBox.handle e self = Ok (tt, self', out) /\
    (out = [] \/
     out = [Emit signalVisaSettingsChanged
              (PyStr (currentText (VisaConnectionBox.dd_device self')))]).
Proof.
  destruct e as [V|index].
  - destruct (decide (V = currentText (VisaConnectionBox.dd_device self))) as [->|HV].
    + rewrite visa_select_same. eauto.
    + rewrite visa_select_new by done. eexists _, _. split; [reflexivity|]. right. reflexivity.
  - rewrite visa_activate. eauto.
Qed.

Lemma toggled_two_state (self : SqlConnectionBox.t) :
  two_state (SqlConnectionBox.checkbox_status self) ->
  two_state (SqlConnectionBox.checkbox_status (toggled self)).
Proof.
  intros [Htri Hstate]. unfold two_state, toggled, nextCheckState. simpl.
  rewrite Htri. split; [reflexivity|].
  destruct (checkState (SqlConnectionBox.checkbox_status self)); discriminate.
Qed.

(** An event of the connections page is handled to completion; it emits
    nothing or one notification, which carries the snapshot of the page as
    the event leaves it; and it keeps a two-state checkbox two-state. *)
Lemma connections_handle (e : ConnectionsPage.event) (p : ConnectionsPage.t) :
  returns (ConnectionsPage.handle e p) (fun _ p' out =>
    (out = [] \/ exists sig, out = [Emit sig (snapshot p' sig)]) /\
    (two_state (SqlConnectionBox.checkbox_status (ConnectionsPage.sql p)) ->
     two_state (SqlConnectionBox.checkbox_status (ConnectionsPage.sql p')))).
Proof.
  destruct e as [e|e|e]; simpl; unfold zoom.
  - destruct (visa_handle e (ConnectionsPage.visa p)) as (b & out & -> & [->| ->]); simpl.
    + auto.
    + split; [|auto]. right. exists signalVisaSettingsChanged. reflexivity.
  - destruct e as [|x s|x].
    + rewrite sql_toggle. simpl. split.
      * right. exists signalSqlSettingsChanged. reflexivity.
      * apply toggled_two_state.
    + rewrite sql_type_text. simpl. auto.
    + rewrite sql_finish_edit. simpl. split; [|auto].
      right. exists signalSqlSettingsChanged. destruct p as [v [] l]. reflexivity.
  - destruct e as [[] user|x s|[]].
    + rewrite local_click_statefile. simpl. auto.
    + rewrite local_click_dir. simpl. auto.
    + rewrite local_type_text. simpl. auto.
    + rewrite local_finish_statefile. simpl. auto.
    + rewrite local_finish_dir. simpl. split; [|auto].
      right. exists signalLocalSettingsChanged. destruct p as [v q []]. reflexivity.
Qed.

(** The same for every event of the window; the events that are not on
    the connections page emit nothing and leave that page alone. *)
Lemma window_handle_snapshot (e : TabWidget.event) (w : MainWindow.t) :
  returns (MainWindow.handle e w) (fun _ w' out =>
    (out = [] \/
     exists sig, out = [Emit sig (snapshot (TabWidget.page_connections (MainWindow.tabs w')) sig)]) /\
    (two_state (SqlConnectionBox.checkbox_status
                  (ConnectionsPage.sql (TabWidget.page_connections (MainWindow.tabs w)))) ->
     two_state (SqlConnectionBox.checkbox_status
                  (ConnectionsPage.sql (TabWidget.page_connections (MainWindow.tabs w'))))) /\
    match e with
    | TabWidget.on_connections _ => True
    | _ => out = [] /\
           TabWidget.page_connections (MainWindow.tabs w') =
           TabWidget.page_connections (MainWindow.tabs w)
    end).
Proof.
  apply returns_zoom.
  destruct e as [e|[e|e]|e|index|from to]; simpl.
  - apply returns_zoom. eapply returns_mono; [|apply connections_handle].
    intros a p' out [Hout Htwo]. simpl. auto.
  - unfold zoom.
    destruct (source_handle e (StatefilePage.box_source (TabWidget.page_statefile (MainWindow.tabs w))))
      as [b ->].
    simpl. auto.
  - unfold zoom. rewrite table_handle. simpl. auto.
  - unfold zoom.
    destruct (aquisition_handle e (TabWidget.page_aquisition (MainWindow.tabs w))) as [b ->].
    simpl. auto.
  - unfold modify. simpl. auto.
  - unfold modify. simpl. auto.
Qed.

(** A property of the window kept by every handler, and a property of the
    notifications every handler emits, at most one at a time, hold along the
    whole run of the event loop. *)
Lemma exec_trace (I : MainWindow.t -> Prop) (P : Emission -> Prop) :
  (forall e w, I w ->
     returns (MainWindow.handle e w) (fun _ w' out =>
       I w' /\ length out <= 1 /\ Forall P out)) ->
  forall events w, I w ->
    returns (MainWindow.exec events w) (fun _ w' out =>
      I w' /\ length out <= length events /\ Forall P out).
Proof.
  intros Hstep events. induction events as [|e events IH]; intros w Hw.
  - simpl. auto.
  - simpl. apply returns_bind.
    eapply returns_mono; [|apply Hstep, Hw].
    intros a w1 out1 (Hw1 & Hlen1 & HP1). simpl.
    eapply returns_mono; [|apply IH, Hw1].
    intros b w2 out2 (Hw2 & Hlen2 & HP2). simpl.
    split; [exact Hw2|]. split.
    + rewrite length_app. lia.
    + apply Forall_app. auto.
Qed.

Lemma app_trace (I : MainWindow.t -> Prop) (P : Emission -> Prop) :
  returns (MainWindow.__init__ tt) (fun w _ out => I w /\ out = []) ->
  (forall e w, I w ->
     returns (MainWindow.handle e w) (fun _ w' out =>
       I w' /\ length out <= 1 /\ Forall P out)) ->
  forall events,
    exists w out, app events = Ok (tt, w, out) /\
      I w /\ length out <= length events /\ Forall P out.
Proof.
  intros Hinit Hstep events. unfold app.
  destruct (MainWindow.__init__ tt) as [[[w0 []] out0]|err]; simpl in Hinit; [|tauto].
  destruct Hinit as [Hw0 ->].
  pose proof (exec_trace I P Hstep events w0 Hw0) as Hrun.
  destruct (MainWindow.exec events w0) as [[[[] w] out]|err]; simpl in Hrun; [|tauto].
  eauto.
Qed.

(** Handling one more event after a sequence: the event is handled in the
    state the sequence leaves, and its notifications come after those of
    the sequence. *)
Lemma exec_snoc (events : list TabWidget.event) (e : TabWidget.event)
    (w w1 w2 : MainWindow.t) (out1 o : list Emission) :
  MainWindow.exec events w = Ok (tt, w1, out1) ->
  MainWindow.handle e w1 = Ok (tt, w2, o) ->
  MainWindow.exec (events ++ [e]) w = Ok (tt, w2, out1 ++ o).
Proof.
  revert w out1. induction events as [|a events IH]; intros w out1 Hrun He.
  - simpl in Hrun. injection Hrun as <- <-.
    simpl. unfold bind. rewrite He. simpl. rewrite app_nil_r. reflexivity.
  - change ((a :: events) ++ [e]) with (a :: (events ++ [e])).
    cbn [MainWindow.exec] in *. unfold bind in *.
    destruct (MainWindow.handle a w) as [[[[] wa] oa]|err]; [|discriminate].
    destruct (MainWindow.exec events wa) as [[[[] wb] ob]|err] eqn:Hrest; [|discriminate].
    injection Hrun as <- <-.
    rewrite (IH wa ob Hrest He). rewrite app_assoc. reflexivity.
Qed.

(** X1.  The application never raises, whatever the user does.  It emits
    nothing while the window is built, and each event it handles, after any
    sequence of events, adds at most one notification to those emitted
    before it.  Every notification emitted carries a payload of the type
    its signal was declared with: a string for the device and path signals,
    a dictionary for the storage signal. *)
Theorem app_emissions_well_typed (events : list TabWidget.event) (e : TabWidget.event) :
  emitted (app []) = Some [] /\
  exists w out w' o,
    app events = Ok (tt, w, out) /\
    MainWindow.handle e w = Ok (tt, w', o) /\
    app (events ++ [e]) = Ok (tt, w', out ++ o) /\
    length o <= 1 /\
    length out <= length events /\
    Forall well_typed (out ++ o).
Proof.
  split; [vm_compute; reflexivity|].
  destruct (app_trace (fun _ => True) well_typed) with (events := events)
    as (w & out & Hrun & _ & Hlen & Htyped).
  - vm_compute. auto.
  - intros a w _. eapply returns_mono; [|apply window_handle_snapshot].
    intros x w' out ([->|[sig ->]] & _ & _); simpl.
    + split; [exact I|]. split; [lia|constructor].
    + split; [exact I|]. split; [lia|].
      apply Forall_singleton. apply snapshot_well_typed.
  - pose proof (window_handle_snapshot e w) as He.
    destruct (MainWindow.handle e w) as [[[[] w'] o]|err] eqn:Hhandle; simpl in He; [|tauto].
    destruct He as (Ho & _ & _).
    exists w, out, w', o. split; [exact Hrun|]. split; [exact Hhandle|].
    split; [|split; [|split; [exact Hlen|]]].
    + unfold app in *.
      destruct (MainWindow.__init__ tt) as [[[w0 []] out0]|err]; [|discriminate].
      destruct (MainWindow.exec events w0) as [[[[] w1] out1]|err] eqn:Hexec; [|discriminate].
      injection Hrun as <- <-.
      rewrite (exec_snoc events e w0 w1 w' out1 o Hexec Hhandle).
      rewrite app_assoc. reflexivity.
    + destruct Ho as [->|[sig ->]]; simpl; lia.
    + apply Forall_app. split; [exact Htyped|].
      destruct Ho as [->|[sig ->]]; [constructor|].
      apply Forall_singleton. apply snapshot_well_typed.
Qed.

(** X2.  From any state of the window, an event is handled to completion
    and emits at most one notification; the notification carries the value
    its panel holds once the event is handled (the selector's current text,
    the dictionary of the four storage fields, the text of the
    fallback-directory field).  An event that is not on the connections
    page emits nothing and leaves that page as it is. *)
Theorem event_emits_at_most_one_snapshot (e : TabWidget.event) (w : MainWindow.t) :
  exists w' out,
    MainWindow.handle e w = Ok (tt, w', out) /\
    length out <= 1 /\
    Forall (fun em =>
      em_payload em =
      snapshot (TabWidget.page_connections (MainWindow.tabs w')) (em_signal em)) out /\
    match e with
    | TabWidget.on_connections _ => True
    | _ => out = [] /\
           TabWidget.page_connections (MainWindow.tabs w') =
           TabWidget.page_connections (MainWindow.tabs w)
    end.
Proof.
  pose proof (window_handle_snapshot e w) as H.
  destruct (MainWindow.handle e w) as [[[[] w'] out]|err]; simpl in H; [|tauto].
  destruct H as (Hout & _ & He).
  exists w', out. split; [reflexivity|].
  destruct Hout as [->|[sig ->]]; simpl.
  - split; [lia|]. split; [constructor|exact He].
  - split; [lia|]. split; [|exact He]. apply Forall_singleton. reflexivity.
Qed.

(** ** The storage box *)

Lemma init_two_state :
  returns (MainWindow.__init__ tt) (fun w _ out =>
    two_state (SqlConnectionBox.checkbox_status
                 (ConnectionsPage.sql (TabWidget.page_connections (MainWindow.tabs w)))) /\
    out = []).
Proof. vm_compute. repeat split; [discriminate]. Qed.

Lemma two_state_enabled (self : SqlConnectionBox.t) :
  two_state (SqlConnectionBox.checkbox_status self) ->
  SqlConnectionBox.settings self !! "enabled" = Some (PyCheckState Unchecked) \/
  SqlConnectionBox.settings self !! "enabled" = Some (PyCheckState Checked).
Proof.
  intros [_ Hstate]. rewrite settings_enabled.
  destruct (checkState (SqlConnectionBox.checkbox_status self)); auto. congruence.
Qed.

(** X3.  The logging checkbox is never made tristate, so in every state the
    application reaches it is either unchecked or checked, and the
    ['enabled'] entry of every storage notification of a run is one of
    these two check states, never the partial one. *)
Theorem enabled_is_two_valued (events : list TabWidget.event) :
  exists w out,
    app events = Ok (tt, w, out) /\
    (let box := ConnectionsPage.sql (TabWidget.page_connections (MainWindow.tabs w)) in
     isTristate (SqlConnectionBox.checkbox_status box) = false /\
     (checkState (SqlConnectionBox.checkbox_status box) = Unchecked \/
      checkState (SqlConnectionBox.checkbox_status box) = Checked)) /\
    Forall (fun em =>
      match em_signal em with
      | signalSqlSettingsChanged =>
          exists d, em_payload em = PyDict d /\
            (d !! "enabled" = Some (PyCheckState Unchecked) \/
             d !! "enabled" = Some (PyCheckState Checked))
      | _ => True
      end) out.
Proof.
  destruct (app_trace
    (fun w => two_state (SqlConnectionBox.checkbox_status
       (ConnectionsPage.sql (TabWidget.page_connections (MainWindow.tabs w)))))
    (fun em =>
      match em_signal em with
      | signalSqlSettingsChanged =>
          exists d, em_payload em = PyDict d /\
            (d !! "enabled" = Some (PyCheckState Unchecked) \/
             d !! "enabled" = Some (PyCheckState Checked))
      | _ => True
      end)) with (events := events) as (w & out & Hrun & [Htri Hstate] & _ & Hout).
  - apply init_two_state.
  - intros e w Hw. eapply returns_mono; [|apply window_handle_snapshot].
    intros a w' out (Hout & Htwo & _). simpl.
    specialize (Htwo Hw). split; [exact Htwo|].
    destruct Hout as [->|[sig ->]]; simpl; [split; [lia|constructor]|].
    split; [lia|]. apply Forall_singleton. destruct sig; simpl; [exact I| |exact I].
    eexists. split; [reflexivity|]. apply two_state_enabled, Htwo.
  - exists w, out. split; [exact Hrun|]. split; [|exact Hout].
    simpl. split; [exact Htri|].
    destruct (checkState _); auto. congruence.
Qed.

Lemma sql_key_lookup (x : SqlConnectionBox.line_edit) (self : SqlConnectionBox.t) :
  SqlConnectionBox.settings self !! sql_key x = Some (PyStr (text (SqlConnectionBox.line x self))).
Proof. destruct x; reflexivity. Qed.

Lemma set_line_line (x y : SqlConnectionBox.line_edit) (l : QLineEdit) (self : SqlConnectionBox.t) :
  SqlConnectionBox.line y (SqlConnectionBox.set_line x l self) =
  if decide (y = x) then l else SqlConnectionBox.line y self.
Proof. destruct x, y; reflexivity. Qed.

(** X4.  Typing a text into one of the three storage fields and then ending
    the edit emits exactly one notification; its dictionary holds the typed
    text under the key of the edited field, and under the other keys the
    values the fields held before: the check state and the other two
    texts. *)
Theorem sql_type_then_finish (self : SqlConnectionBox.t)
    (x : SqlConnectionBox.line_edit) (s : string) :
  exists self' d,
    and_then (SqlConnectionBox.handle (SqlConnectionBox.type_text x s))
             (SqlConnectionBox.handle (SqlConnectionBox.finish_edit x)) self =
      Ok (tt, self', [Emit signalSqlSettingsChanged (PyDict d)]) /\
    d !! "enabled" = Some (PyCheckState (checkState (SqlConnectionBox.checkbox_status self))) /\
    forall y,
      d !! sql_key y =
      Some (PyStr (if decide (y = x) then s else text (SqlConnectionBox.line y self))).
Proof.
  unfold and_then, bind. rewrite sql_type_text, sql_finish_edit.
  eexists _, _. split; [reflexivity|]. split; [reflexivity|].
  intros y. rewrite sql_key_lookup, set_line_line.
  case_decide; reflexivity.
Qed.

Lemma toggled_twice (self : SqlConnectionBox.t) :
  two_state (SqlConnectionBox.checkbox_status self) -> toggled (toggled self) = self.
Proof.
  intros [Htri Hstate]. destruct self as [t l [c tri] ls s ld d lt tb].
  simpl in Htri, Hstate. subst tri.
  unfold toggled, nextCheckState. simpl.
  destruct c; try reflexivity. congruence.
Qed.

(** X5.  On a two-state checkbox, two clicks in a row bring the storage box
    back to the state it was in; they emit two notifications, the first
    with the flipped check state and the second with the original one, both
    with the three texts unchanged. *)
Theorem sql_toggle_twice (self : SqlConnectionBox.t)
    (Htwo : two_state (SqlConnectionBox.checkbox_status self)) :
  exists d1,
    and_then (SqlConnectionBox.handle SqlConnectionBox.toggle_logging)
             (SqlConnectionBox.handle SqlConnectionBox.toggle_logging) self =
      Ok (tt, self,
          [ Emit signalSqlSettingsChanged (PyDict d1);
            Emit signalSqlSettingsChanged (PyDict (SqlConnectionBox.settings self)) ]) /\
    d1 !! "enabled" =
      Some (PyCheckState (nextCheckState (SqlConnectionBox.checkbox_status self))) /\
    d1 !! "enabled" <> SqlConnectionBox.settings self !! "enabled" /\
    forall y, d1 !! sql_key y = SqlConnectionBox.settings self !! sql_key y.
Proof.
  unfold and_then, bind. rewrite !sql_toggle, (toggled_twice self Htwo). simpl.
  eexists. split; [reflexivity|]. split; [reflexivity|]. split.
  - rewrite !settings_enabled. simpl. destruct Htwo as [Htri Hstate].
    unfold nextCheckState. rewrite Htri.
    destruct (checkState (SqlConnectionBox.checkbox_status self)); congruence.
  - intros y. rewrite !sql_key_lookup. destruct y; reflexivity.
Qed.

(** X5 on the box as it is built: unchecked, then checked, then unchecked. *)
Lemma sql_toggle_twice_witness :
  two_state (SqlConnectionBox.checkbox_status (SqlConnectionBox._layout "SQL server connection")) /\
  exists d1,
    and_then (SqlConnectionBox.handle SqlConnectionBox.toggle_logging)
             (SqlConnectionBox.handle SqlConnectionBox.toggle_logging)
             (SqlConnectionBox._layout "SQL server connection") =
      Ok (tt, SqlConnectionBox._layout "SQL server connection",
          [ Emit signalSqlSettingsChanged (PyDict d1);
            Emit signalSqlSettingsChanged
              (PyDict (SqlConnectionBox.settings (SqlConnectionBox._layout "SQL server connection"))) ]) /\
    d1 !! "enabled" =
      Some (PyCheckState (nextCheckState
        (SqlConnectionBox.checkbox_status (SqlConnectionBox._layout "SQL server connection")))) /\
    d1 !! "enabled" <>
      SqlConnectionBox.settings (SqlConnectionBox._layout "SQL server connection") !! "enabled" /\
    forall y, d1 !! sql_key y =
      SqlConnectionBox.settings (SqlConnectionBox._layout "SQL server connection") !! sql_key y.
Proof.
  assert (Htwo : two_state
    (SqlConnectionBox.checkbox_status (SqlConnectionBox._layout "SQL server connection")))
    by (split; [reflexivity | simpl; discriminate]).
  split; [exact Htwo|].
  exact (sql_toggle_twice (SqlConnectionBox._layout "SQL server connection") Htwo).
Defined.

(** X6.  The dictionary of the storage settings determines the four field
    values: two storage boxes whose dictionaries are equal have the same
    check state and the same three texts, so a consumer can read the whole
    state of the fields back from one notification. *)
Theorem settings_determines_fields (a b : SqlConnectionBox.t)
    (Hsame : SqlConnectionBox.settings a = SqlConnectionBox.settings b) :
  checkState (SqlConnectionBox.checkbox_status a) =
    checkState (SqlConnectionBox.checkbox_status b) /\
  forall y, text (SqlConnectionBox.line y a) = text (SqlConnectionBox.line y b).
Proof.
  split.
  - pose proof (f_equal (fun d => d !! "enabled") Hsame) as H. simpl in H.
    rewrite !settings_enabled in H. congruence.
  - intros y. pose proof (f_equal (fun d => d !! sql_key y) Hsame) as H. simpl in H.
    rewrite !sql_key_lookup in H. congruence.
Qed.

(** X6 on two boxes that differ in their titles only. *)
Lemma settings_determines_fields_witness :
  SqlConnectionBox.settings (SqlConnectionBox._layout "SQL server connection") =
    SqlConnectionBox.settings (SqlConnectionBox._layout "Storage") /\
  (checkState (SqlConnectionBox.checkbox_status (SqlConnectionBox._layout "SQL server connection")) =
     checkState (SqlConnectionBox.checkbox_status (SqlConnectionBox._layout "Storage")) /\
   forall y,
     text (SqlConnectionBox.line y (SqlConnectionBox._layout "SQL server connection")) =
     text (SqlConnectionBox.line y (SqlConnectionBox._layout "Storage"))).
Proof.
  split; [reflexivity|].
  apply (settings_determines_fields
           (SqlConnectionBox._layout "SQL server connection")
           (SqlConnectionBox._layout "Storage")).
  reflexivity.
Defined.

Lemma window_sql_event (e : SqlConnectionBox.event) (w : MainWindow.t) :
  exists w' out,
    MainWindow.handle (sql_event e) w = Ok (tt, w', out) /\
    length out = (if sql_commit e then 1 else 0) /\
    Forall (fun em => em_signal em = signalSqlSettingsChanged) out.
Proof.
  unfold sql_event, MainWindow.handle. simpl. unfold zoom.
  destruct e as [|x s|x].
  - rewrite sql_toggle. simpl. eexists _, _. split; [reflexivity|].
    split; [reflexivity|]. apply Forall_singleton. reflexivity.
  - rewrite sql_type_text. simpl. eexists _, _. split; [reflexivity|].
    split; [reflexivity|constructor].
  - rewrite sql_finish_edit. simpl. eexists _, _. split; [reflexivity|].
    split; [reflexivity|]. apply Forall_singleton. reflexivity.
Qed.

(** X7.  Storage notifications are neither coalesced nor dropped: from any
    state of the window, a sequence of events of the storage box emits
    exactly as many notifications as it has commits (checkbox clicks and
    ended edits), all of them storage notifications; typing emits none. *)
Theorem sql_one_notification_per_commit
    (events : list SqlConnectionBox.event) (w : MainWindow.t) :
  exists w' out,
    MainWindow.exec (map sql_event events) w = Ok (tt, w', out) /\
    length out = length (List.filter sql_commit events) /\
    Forall (fun em => em_signal em = signalSqlSettingsChanged) out.
Proof.
  revert w. induction events as [|e events IH]; intros w.
  - simpl. eexists _, _. split; [reflexivity|]. split; [reflexivity|constructor].
  - change (map sql_event (e :: events)) with (sql_event e :: map sql_event events).
    cbn [MainWindow.exec]. unfold bind.
    destruct (window_sql_event e w) as (w1 & out1 & -> & Hlen1 & Hsig1).
    destruct (IH w1) as (w2 & out2 & -> & Hlen2 & Hsig2).
    eexists _, _. split; [reflexivity|]. split.
    + rewrite length_app, Hlen1, Hlen2. simpl.
      destruct (sql_commit e); simpl; lia.
    + apply Forall_app. auto.
Qed.

(** ** The local settings box *)

(** X8.  Browsing for the fallback directory and then ending an edit of the
    field emits exactly one path-change notification, and it carries what
    the picker returned: the chosen directory, or the empty string when the
    picker was cancelled (the empty path is forwarded like any other). *)
Theorem browse_then_finish_notifies_picked (self : LocalConnectionBox.t) (user : Picker) :
  and_then
    (LocalConnectionBox.handle (LocalConnectionBox.click LocalConnectionBox.Button_dir user))
    (LocalConnectionBox.handle (LocalConnectionBox.finish_edit LocalConnectionBox.Line_dir))
    self =
  Ok (tt,
      LocalConnectionBox.set_line LocalConnectionBox.Line_dir
        {| text := match chosen_directory user with Some dir => dir | None => "" end |} self,
      [Emit signalLocalSettingsChanged
         (PyStr match chosen_directory user with Some dir => dir | None => "" end)]).
Proof.
  unfold and_then, bind. rewrite local_click_dir, local_finish_dir.
  destruct (chosen_directory user); reflexivity.
Qed.

Lemma local_handle_exact (e : LocalConnectionBox.event) (self : LocalConnectionBox.t) :
  LocalConnectionBox.handle e self =
  Ok (tt,
      match e with
      | LocalConnectionBox.click LocalConnectionBox.Button_statefile user =>
          LocalConnectionBox.set_line LocalConnectionBox.Line_statefile
            {| text := (getOpenFileName (chosen_file user)).1 |} self
      | LocalConnectionBox.click LocalConnectionBox.Button_dir user =>
          LocalConnectionBox.set_line LocalConnectionBox.Line_dir
            {| text := getExistingDirectory (chosen_directory user) |} self
      | LocalConnectionBox.type_text x s => LocalConnectionBox.set_line x {| text := s |} self
      | LocalConnectionBox.finish_edit _ => self
      end,
      local_emissions e self).
Proof.
  destruct e as [[] user|x s|[]]; cbn [local_emissions].
  - apply local_click_statefile.
  - apply local_click_dir.
  - apply local_type_text.
  - apply local_finish_statefile.
  - apply local_finish_dir.
Qed.

(** X9.  The state-file field is wired to nothing: whatever text it holds,
    every event of the local settings box emits the same notifications and
    leaves the same text in the fallback-directory field. *)
Theorem statefile_text_never_observed
    (self : LocalConnectionBox.t) (s : string) (e : LocalConnectionBox.event) :
  exists self1 self2 out,
    LocalConnectionBox.handle e self = Ok (tt, self1, out) /\
    LocalConnectionBox.handle e
      (LocalConnectionBox.set_line LocalConnectionBox.Line_statefile {| text := s |} self) =
      Ok (tt, self2, out) /\
    LocalConnectionBox.line_dir self1 = LocalConnectionBox.line_dir self2.
Proof.
  rewrite !local_handle_exact.
  destruct e as [[] user|[] t|[]]; eexists _, _, _; repeat split; reflexivity.
Qed.

(** ** The device box *)

Lemma visa_select_current (self : VisaConnectionBox.t) (V : string) :
  currentText (VisaConnectionBox.dd_device self) = V ->
  VisaConnectionBox.handle (VisaConnectionBox.select_device V) self = Ok (tt, self, []).
Proof. intros <-. apply visa_select_same. Qed.

(** X10.  Selecting the same device twice in a row notifies once at most:
    the second selection finds the text already current and emits nothing,
    and the first emits only if it changed the current text.  Either way
    the selector ends on the selected text. *)
Theorem reselect_is_silent (self : VisaConnectionBox.t) (V : string) :
  exists self',
    and_then (VisaConnectionBox.handle (VisaConnectionBox.select_device V))
             (VisaConnectionBox.handle (VisaConnectionBox.select_device V)) self =
      Ok (tt, self',
          if decide (V = currentText (VisaConnectionBox.dd_device self))
          then [] else [Emit signalVisaSettingsChanged (PyStr V)]) /\
    currentText (VisaConnectionBox.dd_device self') = V.
Proof.
  unfold and_then, bind.
  destruct (decide (V = currentText (VisaConnectionBox.dd_device self))) as [->|HV].
  - rewrite !visa_select_same. eexists. split; reflexivity.
  - rewrite visa_select_new by done.
    rewrite (visa_select_current _ V) by reflexivity.
    eexists. split; reflexivity.
Qed.

(** ** The pages that connect nothing *)

Lemma window_handle_table (e : TabWidget.event) (w : MainWindow.t) :
  returns (MainWindow.handle e w) (fun _ w' _ =>
    route_table w' =
    match e with
    | TabWidget.on_statefile (StatefilePage.on_table (StatefileTable.edit_cell row column s)) =>
        editCell row column s (route_table w)
    | _ => route_table w
    end).
Proof.
  apply returns_zoom. unfold route_table.
  destruct e as [e|[e|e]|e|index|from to]; simpl.
  - apply returns_zoom.
    pose proof (connections_handle e (TabWidget.page_connections (MainWindow.tabs w))) as H.
    destruct (ConnectionsPage.handle e _) as [[[[] p] out]|err]; simpl in *; [reflexivity|tauto].
  - unfold zoom.
    destruct (source_handle e (StatefilePage.box_source (TabWidget.page_statefile (MainWindow.tabs w))))
      as [b ->].
    reflexivity.
  - unfold zoom. rewrite table_handle. destruct e. reflexivity.
  - unfold zoom.
    destruct (aquisition_handle e (TabWidget.page_aquisition (MainWindow.tabs w))) as [b ->].
    reflexivity.
  - reflexivity.
  - reflexivity.
Qed.

Lemma editCell_no_rows (row column : nat) (s : string) (w : QTableWidget) :
  rowCount w = 0 -> editCell row column s w = w.
Proof. intros Hrows. unfold editCell. rewrite Hrows. case_decide; [lia|reflexivity]. Qed.

(** X11.  The route table never holds a cell: it is built without rows and
    nothing adds one, so an attempt to edit a cell finds no cell, and after
    every sequence of events the table is exactly as it was built. *)
Theorem route_table_stays_empty (events : list TabWidget.event) :
  exists w out,
    app events = Ok (tt, w, out) /\
    items (route_table w) = ∅ /\
    route_table w = setHorizontalHeaderLabels StatefileTable.headers (QTableWidget_new 0 4).
Proof.
  destruct (app_trace
    (fun w => route_table w = setHorizontalHeaderLabels StatefileTable.headers (QTableWidget_new 0 4))
    (fun _ => True)) with (events := events) as (w & out & Hrun & Hw & _ & _).
  - vm_compute. auto.
  - intros e w Hw.
    pose proof (window_handle_table e w) as Htable.
    pose proof (window_handle_snapshot e w) as Hout.
    destruct (MainWindow.handle e w) as [[[[] w'] out]|err]; simpl in *; [|tauto].
    destruct Hout as (Hout & _ & _). split.
    + rewrite Htable. destruct e as [e|[e|[row column s]]|e|index|from to]; try exact Hw.
      rewrite editCell_no_rows; [exact Hw|]. rewrite Hw. reflexivity.
    + destruct Hout as [->|[sig ->]]; simpl; split; try lia; repeat constructor.
  - exists w, out. split; [exact Hrun|]. split; [|exact Hw]. rewrite Hw. reflexivity.
Qed.

Lemma aquisition_click (b : AquisitionPage.button) (self : AquisitionPage.t) :
  AquisitionPage.handle (AquisitionPage.click b) self = Ok (tt, self, []).
Proof. unfold AquisitionPage.handle, AquisitionPage.fire. limit. run. Qed.

Lemma source_click_reload (self : StatefileSourceBox.t) :
  StatefileSourceBox.handle StatefileSourceBox.click_reload self = Ok (tt, self, []).
Proof. unfold StatefileSourceBox.handle, StatefileSourceBox.fire. limit. run. Qed.

(** X12.  The push buttons of the acquisition page ("Guess meta data", "Set
    load", "Start") and the "Reload" button of the route page are connected
    to nothing: from any state of the window, a click on one of them leaves
    the whole window exactly as it was and emits nothing. *)
Theorem unconnected_buttons_do_nothing (w : MainWindow.t) :
  (forall b : AquisitionPage.button,
     MainWindow.handle (TabWidget.on_aquisition (AquisitionPage.click b)) w = Ok (tt, w, [])) /\
  MainWindow.handle
    (TabWidget.on_statefile (StatefilePage.on_source StatefileSourceBox.click_reload)) w =
  Ok (tt, w, []).
Proof.
  destruct w as [title [bar pc [src tb] pa]]. split.
  - intros b. unfold MainWindow.handle, TabWidget.handle, zoom.
    cbn [MainWindow.tabs TabWidget.page_aquisition].
    rewrite aquisition_click. reflexivity.
  - unfold MainWindow.handle, TabWidget.handle, StatefilePage.handle, zoom.
    cbn [MainWindow.tabs TabWidget.page_statefile StatefilePage.box_source].
    rewrite source_click_reload. reflexivity.
Qed.

(** ** The connections page *)

Lemma local_handle_out (e : LocalConnectionBox.event) (self : LocalConnectionBox.t) :
  exists self' out, LocalConnectionBox.handle e self = Ok (tt, self', out).
Proof. destruct (local_handle e self) as [self' H]. eauto. Qed.

(** X13.  The three connection boxes do not interfere: two events on two
    different boxes can be handled in either order, with the same page at
    the end and the same notifications, those of each box in either
    order. *)
Theorem boxes_commute (p : ConnectionsPage.t)
    (ev : VisaConnectionBox.event) (es : SqlConnectionBox.event)
    (el : LocalConnectionBox.event) :
  (exists p' out_v out_s,
     and_then (ConnectionsPage.handle (ConnectionsPage.on_visa ev))
              (ConnectionsPage.handle (ConnectionsPage.on_sql es)) p =
       Ok (tt, p', out_v ++ out_s) /\
     and_then (ConnectionsPage.handle (ConnectionsPage.on_sql es))
              (ConnectionsPage.handle (ConnectionsPage.on_visa ev)) p =
       Ok (tt, p', out_s ++ out_v)) /\
  (exists p' out_v out_l,
     and_then (ConnectionsPage.handle (ConnectionsPage.on_visa ev))
              (ConnectionsPage.handle (ConnectionsPage.on_local el)) p =
       Ok (tt, p', out_v ++ out_l) /\
     and_then (ConnectionsPage.handle (ConnectionsPage.on_local el))
              (ConnectionsPage.handle (ConnectionsPage.on_visa ev)) p =
       Ok (tt, p', out_l ++ out_v)) /\
  (exists p' out_s out_l,
     and_then (ConnectionsPage.handle (ConnectionsPage.on_sql es))
              (ConnectionsPage.handle (ConnectionsPage.on_local el)) p =
       Ok (tt, p', out_s ++ out_l) /\
     and_then (ConnectionsPage.handle (ConnectionsPage.on_local el))
              (ConnectionsPage.handle (ConnectionsPage.on_sql es)) p =
       Ok (tt, p', out_l ++ out_s)).
Proof.
  destruct (visa_handle ev (ConnectionsPage.visa p)) as (v' & out_v & Hv & _).
  destruct (sql_handle es (ConnectionsPage.sql p)) as (s' & out_s & Hs).
  destruct (local_handle_out el (ConnectionsPage.local p)) as (l' & out_l & Hl).
  unfold and_then, bind, ConnectionsPage.handle, zoom.
  split; [|split].
  - exists (ConnectionsPage.set_sql s' (ConnectionsPage.set_visa v' p)), out_v, out_s.
    rewrite Hv, Hs.
    cbn [ConnectionsPage.sql ConnectionsPage.visa ConnectionsPage.set_visa ConnectionsPage.set_sql].
    rewrite Hv, Hs. split; reflexivity.
  - exists (ConnectionsPage.set_local l' (ConnectionsPage.set_visa v' p)), out_v, out_l.
    rewrite Hv, Hl.
    cbn [ConnectionsPage.local ConnectionsPage.visa ConnectionsPage.set_visa ConnectionsPage.set_local].
    rewrite Hv, Hl. split; reflexivity.
  - exists (ConnectionsPage.set_local l' (ConnectionsPage.set_sql s' p)), out_s, out_l.
    rewrite Hs, Hl.
    cbn [ConnectionsPage.local ConnectionsPage.sql ConnectionsPage.set_sql ConnectionsPage.set_local].
    rewrite Hs, Hl. split; reflexivity.
Qed.

Lemma connections_handle_cleared (e : ConnectionsPage.event) (p : ConnectionsPage.t) :
  returns (ConnectionsPage.handle e p) (fun _ p' _ =>
    cleared_visa (ConnectionsPage.visa p') = cleared_visa (ConnectionsPage.visa p) /\
    cleared_sql (ConnectionsPage.sql p') = cleared_sql (ConnectionsPage.sql p) /\
    cleared_local (ConnectionsPage.local p') = cleared_local (ConnectionsPage.local p)).
Proof.
  destruct e as [e|e|e]; unfold ConnectionsPage.handle, zoom.
  - destruct e as [V|index].
    + destruct (decide (V = currentText (VisaConnectionBox.dd_device (ConnectionsPage.visa p))))
        as [->|HV].
      * rewrite visa_select_same. simpl. auto.
      * rewrite visa_select_new by done. simpl. auto.
    + rewrite visa_activate. simpl. auto.
  - destruct e as [|x s|x].
    + rewrite sql_toggle. simpl. auto.
    + rewrite sql_type_text. simpl. split; [reflexivity|]. split; [|reflexivity].
      destruct x; reflexivity.
    + rewrite sql_finish_edit. simpl. auto.
  - rewrite local_handle_exact. simpl. split; [reflexivity|]. split; [reflexivity|].
    destruct e as [[] user|[] s|x]; reflexivity.
Qed.

Lemma window_handle_cleared (e : TabWidget.event) (w : MainWindow.t) :
  returns (MainWindow.handle e w) (fun _ w' _ =>
    MainWindow.windowTitle w' = MainWindow.windowTitle w /\
    cleared_visa (visa_box w') = cleared_visa (visa_box w) /\
    cleared_sql (ConnectionsPage.sql (TabWidget.page_connections (MainWindow.tabs w'))) =
      cleared_sql (ConnectionsPage.sql (TabWidget.page_connections (MainWindow.tabs w))) /\
    cleared_local (ConnectionsPage.local (TabWidget.page_connections (MainWindow.tabs w'))) =
      cleared_local (ConnectionsPage.local (TabWidget.page_connections (MainWindow.tabs w)))).
Proof.
  apply returns_zoom. unfold visa_box.
  destruct e as [e|[e|e]|e|index|from to]; simpl.
  - apply returns_zoom. eapply returns_mono; [|apply connections_handle_cleared].
    intros a p' out H. simpl. auto.
  - unfold zoom.
    destruct (source_handle e (StatefilePage.box_source (TabWidget.page_statefile (MainWindow.tabs w))))
      as [b ->].
    simpl. auto.
  - unfold zoom. rewrite table_handle. simpl. auto.
  - unfold zoom.
    destruct (aquisition_handle e (TabWidget.page_aquisition (MainWindow.tabs w))) as [b ->].
    simpl. auto.
  - unfold modify. simpl. auto.
  - unfold modify. simpl. auto.
Qed.

(** X14.  Nothing the user does changes what the layout methods fix: after
    every sequence of events the window still has its title, and each of
    the three connection boxes differs from the box its [_layout] built
    only in its input widgets (the device selector; the checkbox and the
    three storage fields; the two path fields): titles, labels and buttons
    are as built. *)
Theorem layout_is_kept (events : list TabWidget.event) :
  exists w out,
    app events = Ok (tt, w, out) /\
    MainWindow.windowTitle w = WINDOW_TITLE /\
    cleared_visa (visa_box w) = VisaConnectionBox._layout "VISA device connection" /\
    cleared_sql (ConnectionsPage.sql (TabWidget.page_connections (MainWindow.tabs w))) =
      SqlConnectionBox._layout "SQL server connection" /\
    cleared_local (ConnectionsPage.local (TabWidget.page_connections (MainWindow.tabs w))) =
      LocalConnectionBox._layout "Local settings".
Proof.
  destruct (app_trace
    (fun w =>
       MainWindow.windowTitle w = WINDOW_TITLE /\
       cleared_visa (visa_box w) = VisaConnectionBox._layout "VISA device connection" /\
       cleared_sql (ConnectionsPage.sql (TabWidget.page_connections (MainWindow.tabs w))) =
         SqlConnectionBox._layout "SQL server connection" /\
       cleared_local (ConnectionsPage.local (TabWidget.page_connections (MainWindow.tabs w))) =
         LocalConnectionBox._layout "Local settings")
    (fun _ => True)) with (events := events) as (w & out & Hrun & Hw & _ & _).
  - vm_compute. auto.
  - intros e w (Htitle & Hvisa & Hsql & Hlocal).
    pose proof (window_handle_cleared e w) as Hkept.
    pose proof (window_handle_snapshot e w) as Hout.
    destruct (MainWindow.handle e w) as [[[[] w'] out]|err]; simpl in *; [|tauto].
    destruct Hkept as (-> & -> & -> & ->). destruct Hout as (Hout & _ & _).
    split; [auto|].
    destruct Hout as [->|[sig ->]]; simpl; split; try lia; repeat constructor.
  - eauto.
Qed.

(** ** The metadata box *)

Lemma metadata_handle_exact (e : MetadataBox.event) (self : MetadataBox.t) :
  MetadataBox.handle e self =
  Ok (tt,
      match e with
      | MetadataBox.type_text x s => MetadataBox.set_line x {| text := s |} self
      | _ => self
      end, []).
Proof.
  unfold MetadataBox.handle, MetadataBox.fire. limit.
  destruct e as [x s|x|x]; run.
Qed.

(** X15.  The part and run numbers are changed by typing in their own
    fields and by nothing else: from any state of the window, every other
    event (on any page, on the tab bar, or ending an edit of a metadata
    field) leaves both fields as they were, so the values are there to be
    read when they are wanted. *)
Theorem metadata_changed_by_typing_only (e : TabWidget.event) (w : MainWindow.t) :
  exists w' out,
    MainWindow.handle e w = Ok (tt, w', out) /\
    AquisitionPage.box_metadata (TabWidget.page_aquisition (MainWindow.tabs w')) =
    match e with
    | TabWidget.on_aquisition (AquisitionPage.on_metadata (MetadataBox.type_text x s)) =>
        MetadataBox.set_line x {| text := s |}
          (AquisitionPage.box_metadata (TabWidget.page_aquisition (MainWindow.tabs w)))
    | _ => AquisitionPage.box_metadata (TabWidget.page_aquisition (MainWindow.tabs w))
    end.
Proof.
  pose proof (window_handle_snapshot e w) as Hrun.
  destruct e as [e|e|[b|e]|index|from to].
  - destruct (MainWindow.handle _ w) as [[[[] w'] out]|err] eqn:He; simpl in Hrun; [|tauto].
    exists w', out. split; [reflexivity|].
    unfold MainWindow.handle, TabWidget.handle, zoom in He.
    destruct (ConnectionsPage.handle e _) as [[[[] p] o]|err]; [|discriminate].
    injection He as <- _. reflexivity.
  - destruct (MainWindow.handle _ w) as [[[[] w'] out]|err] eqn:He; simpl in Hrun; [|tauto].
    exists w', out. split; [reflexivity|].
    unfold MainWindow.handle, TabWidget.handle, zoom in He.
    destruct (StatefilePage.handle e _) as [[[[] p] o]|err]; [|discriminate].
    injection He as <- _. reflexivity.
  - clear Hrun. unfold MainWindow.handle, TabWidget.handle, zoom.
    rewrite aquisition_click. eexists _, _. split; reflexivity.
  - clear Hrun. unfold MainWindow.handle, TabWidget.handle, AquisitionPage.handle, zoom.
    rewrite metadata_handle_exact. eexists _, _. split; [reflexivity|].
    destruct e; reflexivity.
  - clear Hrun. eexists _, _. split; reflexivity.
  - clear Hrun. eexists _, _. split; reflexivity.
Qed.
